(** * azure-monitor demo service: handlers and telemetry bootstrap

    A shallow embedding of [app/main.py] and [app/telemetry.py].  Handlers are
    functions in a small state-and-exception monad over a [World] that holds
    the telemetry registry, the logging state and the traces of the calls the
    handlers make on loggers, instruments, spans, the clock and the network.
    Python floats are binary64 values, embedded as the rationals they denote
    with every arithmetic result rounded by [Float64.fl]. *)

From Stdlib Require Import ZArith QArith Qround Qabs Qpower Lia Lqa.
From Stdlib Require Import List String Ascii Bool DecimalString.
Import ListNotations.

Set Warnings "-register-all".
Local Open Scope Z_scope.

(* ================================================================= *)
(** ** Binary64 arithmetic on rationals *)

Module Float64.

Local Open Scope Q_scope.

(** Precision and smallest normal exponent of IEEE-754 binary64. *)
Definition prec : Z := 53.
Definition emin : Z := -1022.

Definition pow2 (e : Z) : Q := 2 ^ e.

(** Nearest integer, ties to the even one. *)
Definition rne (x : Q) : Z :=
  let f := Qfloor x in
  match Qcompare (x - inject_Z f) (1 # 2) with
  | Lt => f
  | Gt => (f + 1)%Z
  | Eq => if Z.even f then f else (f + 1)%Z
  end.

(** The exponent [e] with [2^e <= x < 2^(e+1)], for [0 < x]. *)
Definition ilog2 (x : Q) : Z :=
  let e0 := (Z.log2 (Qnum x) - Z.log2 (Zpos (Qden x)))%Z in
  if Qle_bool (pow2 e0) x then e0 else (e0 - 1)%Z.

(** Unit in the last place of the binade of [x] (subnormals share the one of
    the smallest normal binade). *)
Definition ulp (x : Q) : Q := pow2 (Z.max (ilog2 x) emin - (prec - 1)).

Definition fl_abs (a : Q) : Q := inject_Z (rne (a / ulp a)) * ulp a.

(** Round to nearest binary64, ties to even.  The finite range only: every
    magnitude the handlers compute is below [2^12]. *)
Definition fl (x : Q) : Q :=
  Qred (if Qle_bool 0 x then fl_abs x else - fl_abs (- x)).

Definition fadd (x y : Q) : Q := fl (x + y).
Definition fsub (x y : Q) : Q := fl (x - y).
Definition fmul (x y : Q) : Q := fl (x * y).

(** [round(x, ndigits)] of a float: the decimal with [ndigits] digits nearest
    to the exact value of [x] (ties to even), converted back to binary64. *)
Definition round_ndigits (x : Q) (ndigits : nat) : Q :=
  let s := inject_Z (10 ^ Z.of_nat ndigits) in
  fl (inject_Z (rne (x * s)) / s).

End Float64.

(* ================================================================= *)
(** ** Python values *)

Local Open Scope string_scope.

(** Why a value that [json.loads] builds cannot be written as JSON again by
    the framework: it is nested deeper than the encoder can descend on the
    stack it is given; it is a float that is not finite, which [json.loads]
    builds from [Infinity], [-Infinity], [NaN] and from numerals beyond the
    range of a double such as [1e400]; it is a string, or a dictionary with a
    key, that holds a surrogate without its pair, as built from an escape
    such as [\ud800], which has no UTF-8 encoding. *)
Inductive Refusal : Type := TooDeep | NonFinite | LoneSurrogate.

(** JSON-shaped values: response bodies, [extra] dictionaries of log calls,
    attribute dictionaries of instruments and spans.  Objects keep the
    insertion order of the Python dict.  [JFloat] holds the finite floats,
    [JStr] the strings that have an encoding; [JRefused] stands for a value
    that cannot be written as JSON, with the reason. *)
Inductive JSON : Type :=
| JNull
| JBool (b : bool)
| JInt (n : Z)
| JFloat (x : Q)
| JStr (s : string)
| JList (l : list JSON)
| JObj (kv : list (string * JSON))
| JRefused (why : Refusal).

Definition Dict := list (string * JSON).

Fixpoint dict_get (k : string) (d : Dict) : option JSON :=
  match d with
  | [] => None
  | (k', v) :: d' => if String.eqb k k' then Some v else dict_get k d'
  end.

Definition has_key (k : string) (d : Dict) : bool :=
  match dict_get k d with Some _ => true | None => false end.

(** [str(n)] of an int. *)
Definition str_int (n : Z) : string := NilZero.string_of_int (Z.to_int n).

(** [str(x)] of an optional string ([None] prints as its name). *)
Definition str_opt (s : option string) : string :=
  match s with Some s => s | None => "None" end.

Definition json_opt (s : option string) : JSON :=
  match s with Some s => JStr s | None => JNull end.

(** [f"{x:.2f}"]: the exact value rounded to two decimals, ties to even. *)
Definition format_2f (x : Q) : string :=
  let n := Float64.rne (Qabs x * 100) in
  let frac := (n mod 100)%Z in
  (if Qle_bool 0 x then "" else "-")
    ++ str_int (n / 100) ++ "."
    ++ (if (frac <? 10)%Z then "0" else "") ++ str_int frac.

(** Exceptions.  Every constructor is a subclass of [Exception];
    [LibraryError] stands for the classes of third-party code
    ([requests.exceptions.Timeout], [ConnectionError], [JSONDecodeError]...). *)
Inductive PyExc : Type :=
| HTTPException (status_code : Z) (detail : string)
| RuntimeError (msg : string)
| ZeroDivisionError (msg : string)
| ValueError (msg : string)
| TypeError (msg : string)
| LibraryError (cls : string) (msg : string).

(** [type(e).__name__] *)
Definition type_name (e : PyExc) : string :=
  match e with
  | HTTPException _ _ => "HTTPException"
  | RuntimeError _ => "RuntimeError"
  | ZeroDivisionError _ => "ZeroDivisionError"
  | ValueError _ => "ValueError"
  | TypeError _ => "TypeError"
  | LibraryError cls _ => cls
  end.

(** [str(e)] *)
Definition str_exc (e : PyExc) : string :=
  match e with
  | HTTPException sc d => str_int sc ++ ": " ++ d
  | RuntimeError m | ZeroDivisionError m | ValueError m | TypeError m => m
  | LibraryError _ m => m
  end.

Definition is_HTTPException (e : PyExc) : bool :=
  match e with HTTPException _ _ => true | _ => false end.

(* ================================================================= *)
(** ** HTTP messages *)

Record Request := {
  req_method : string;
  req_path : string;                       (* request.url.path *)
  req_query : list (string * string)       (* query string, in order *)
}.

Inductive Body : Type :=
| JsonBody (j : JSON)
| TextBody (s : string).

Record HttpResponse := {
  resp_status : Z;
  resp_body : Body
}.

(** What a route or an exception handler hands back to the framework: a
    plain Python value, or a response object. *)
Inductive PyValue : Type :=
| PyJson (j : JSON)
| PyResponse (r : HttpResponse).

(** What a call ends in: a value, or an exception. *)
Inductive Outcome (A : Type) : Type :=
| Ok (a : A)
| Raise (e : PyExc).
Arguments Ok {A} a.
Arguments Raise {A} e.

(** The object [requests.get] returns when the call completes.  Any status
    code completes the call; [json_body] is what [response.json()] does with
    the payload: the decoded value, or the exception it raises when the
    payload does not decode. *)
Record Response := {
  status_code : Z;
  elapsed_seconds : Q;
  json_body : Outcome JSON
}.

Inductive GetOutcome : Type :=
| Returned (r : Response)
| Failed (e : PyExc).

(* ================================================================= *)
(** ** Telemetry objects *)

Inductive Level : Type := NOTSET | DEBUG | INFO | WARNING | ERROR | CRITICAL.

Record LogRecord := {
  lr_name : string;
  lr_level : Level;
  lr_msg : string;
  lr_extra : Dict;
  lr_exc_info : option PyExc
}.

Inductive PyNum : Type := PyInt (n : Z) | PyFloat (x : Q).

Record Measurement := {
  instrument : string;
  amount : PyNum;
  attributes : Dict
}.

Inductive SpanCall : Type :=
| SpanStart (name : string)
| SetAttribute (name key : string) (v : JSON)
| AddEvent (name event : string) (attrs : Dict)
| RecordException (name : string) (e : PyExc)
| SpanEnd (name : string).

(** Everything a handler does that is visible outside it, in program order. *)
Inductive Event : Type :=
| LogCall (r : LogRecord)
| MetricCall (m : Measurement)
| TraceCall (c : SpanCall)
| HttpGet (url : string) (timeout : Z)
| Sleep (seconds : Q).

Record Resource := {
  service_name : string;
  service_version : string;
  deployment_environment : string
}.

Inductive Exporter : Type :=
| AzureMonitorTraceExporter (connection_string : string)
| AzureMonitorMetricExporter (connection_string : string)
| AzureMonitorLogExporter (connection_string : string).

Inductive Processor : Type :=
| BatchSpanProcessor (e : Exporter)
| PeriodicExportingMetricReader (e : Exporter)
| BatchLogRecordProcessor (e : Exporter).

(** A tracer, meter or logger provider object. *)
Record Provider := {
  resource : Resource;
  processors : list Processor
}.

(** Provider objects live in a heap and are named by their index, so that
    [add_span_processor] on a provider already registered is seen through
    the registry. *)
Definition ProviderId := nat.

Inductive Handler : Type :=
| StreamHandler                                         (* logging.basicConfig *)
| LoggingHandler (level : Level) (logger_provider : ProviderId).

Inductive Instrumentation : Type :=
| FastAPIInstrumentor (app_title : string) (tracer_provider : ProviderId)
| RequestsInstrumentor
| LoggingInstrumentor (set_logging_format : bool).

Record AzureMonitorOptions := {
  am_connection_string : string;
  am_enable_live_metrics : bool;
  am_logger_name : string
}.

(** The process: telemetry registry, root logger, the calls made to the
    instrumentors and to the Azure Monitor distro, and the trace of effects. *)
Record World := {
  providers : list Provider;                 (* heap of provider objects *)
  tracer_provider : option ProviderId;       (* global registry, set once *)
  meter_provider : option ProviderId;
  logger_provider : option ProviderId;
  root_handlers : list Handler;              (* logging.getLogger().handlers *)
  root_level : Level;
  instrumented : list Instrumentation;       (* instrument calls *)
  azure_monitor : list AzureMonitorOptions;  (* configure_azure_monitor calls *)
  trace : list Event;                        (* oldest first *)
  rng_draws : nat;                           (* draws taken from [random] *)
  clock_reads : nat;                         (* readings taken of time.time() *)
  http_calls : nat                           (* outbound calls started *)
}.

(** What the handlers cannot decide: the random generator, the system clock
    and the network, each as the sequence of answers it gives. *)
Record Env := {
  env_random : nat -> N;      (* k-th 53-bit draw of random.random() *)
  env_index : nat -> nat;     (* k-th draw used to pick an index *)
  env_clock : nat -> Q;       (* k-th reading of the system clock *)
  env_http : nat -> GetOutcome  (* outcome of the k-th outbound call *)
}.

(* ================================================================= *)
(** ** The monad of handlers: state, and exceptions that keep the state *)

Definition M (A : Type) : Type := World -> Outcome A * World.

Definition ret {A} (a : A) : M A := fun w => (Ok a, w).

Definition bind {A B} (m : M A) (k : A -> M B) : M B :=
  fun w =>
    match m w with
    | (Ok a, w') => k a w'
    | (Raise e, w') => (Raise e, w')
    end.

Definition raise {A} (e : PyExc) : M A := fun w => (Raise e, w).

(** [try: body  except Exception as e: handler e] *)
Definition try_except {A} (body : M A) (handler : PyExc -> M A) : M A :=
  fun w =>
    match body w with
    | (Ok a, w') => (Ok a, w')
    | (Raise e, w') => handler e w'
    end.

Declare Scope py_scope.
Delimit Scope py_scope with py.
Notation "x <- c ;; k" := (bind c (fun x => k))
  (at level 61, c at next level, right associativity) : py_scope.
Notation "c ;; k" := (bind c (fun _ => k))
  (at level 61, right associativity) : py_scope.
Local Open Scope py_scope.

Definition emit (e : Event) : M unit :=
  fun w =>
    (Ok tt,
     {| providers := providers w; tracer_provider := tracer_provider w;
        meter_provider := meter_provider w; logger_provider := logger_provider w;
        root_handlers := root_handlers w; root_level := root_level w;
        instrumented := instrumented w; azure_monitor := azure_monitor w;
        trace := trace w ++ [e];
        rng_draws := rng_draws w; clock_reads := clock_reads w;
        http_calls := http_calls w |}).

Definition count_clock_read : M nat :=
  fun w =>
    (Ok (clock_reads w),
     {| providers := providers w; tracer_provider := tracer_provider w;
        meter_provider := meter_provider w; logger_provider := logger_provider w;
        root_handlers := root_handlers w; root_level := root_level w;
        instrumented := instrumented w; azure_monitor := azure_monitor w;
        trace := trace w;
        rng_draws := rng_draws w; clock_reads := S (clock_reads w);
        http_calls := http_calls w |}).

Definition count_rng_draw : M nat :=
  fun w =>
    (Ok (rng_draws w),
     {| providers := providers w; tracer_provider := tracer_provider w;
        meter_provider := meter_provider w; logger_provider := logger_provider w;
        root_handlers := root_handlers w; root_level := root_level w;
        instrumented := instrumented w; azure_monitor := azure_monitor w;
        trace := trace w;
        rng_draws := S (rng_draws w); clock_reads := clock_reads w;
        http_calls := http_calls w |}).

Definition count_http_call : M nat :=
  fun w =>
    (Ok (http_calls w),
     {| providers := providers w; tracer_provider := tracer_provider w;
        meter_provider := meter_provider w; logger_provider := logger_provider w;
        root_handlers := root_handlers w; root_level := root_level w;
        instrumented := instrumented w; azure_monitor := azure_monitor w;
        trace := trace w;
        rng_draws := rng_draws w; clock_reads := clock_reads w;
        http_calls := S (http_calls w) |}).

(* ================================================================= *)
(** ** Library calls the handlers make *)

Module Logging.

(** A call on a named logger.  The record is traced whatever the level
    thresholds in force: filtering is the logging library's. *)
Definition log (logger : string) (lvl : Level) (msg : string) (extra : Dict)
    (exc : option PyExc) : M unit :=
  emit (LogCall {| lr_name := logger; lr_level := lvl; lr_msg := msg;
                   lr_extra := extra; lr_exc_info := exc |}).

End Logging.

(** [logger = logging.getLogger(__name__)] of [app.main]. *)
Definition logger : string := "app.main".

Definition logger_debug (msg : string) (extra : Dict) : M unit :=
  Logging.log logger DEBUG msg extra None.
Definition logger_info (msg : string) (extra : Dict) : M unit :=
  Logging.log logger INFO msg extra None.
Definition logger_warning (msg : string) (extra : Dict) : M unit :=
  Logging.log logger WARNING msg extra None.
Definition logger_error (msg : string) (extra : Dict) : M unit :=
  Logging.log logger ERROR msg extra None.
(** [logger.exception]: level ERROR, with the exception being handled. *)
Definition logger_exception (msg : string) (extra : Dict) (e : PyExc) : M unit :=
  Logging.log logger ERROR msg extra (Some e).

(** The four instruments created at import time. *)
Definition request_counter : string := "demo.requests.total".
Definition processing_time_histogram : string := "demo.processing.duration".
Definition active_users_gauge : string := "demo.active_users".
Definition error_counter : string := "demo.errors.total".

(** [counter.add], [histogram.record], [up_down_counter.add] *)
Definition instrument_record (name : string) (v : PyNum) (attrs : Dict) : M unit :=
  emit (MetricCall {| instrument := name; amount := v; attributes := attrs |}).

Definition span_set_attribute (span key : string) (v : JSON) : M unit :=
  emit (TraceCall (SetAttribute span key v)).
Definition span_add_event (span event : string) (attrs : Dict) : M unit :=
  emit (TraceCall (AddEvent span event attrs)).
Definition span_record_exception (span : string) (e : PyExc) : M unit :=
  emit (TraceCall (RecordException span e)).

Definition is_registered (provider : option ProviderId) : bool :=
  match provider with Some _ => true | None => false end.

(** Whether [tracer] makes spans that record: it does once a tracer provider
    is registered; until then the API hands out its no-op span. *)
Definition tracer_is_recording : M bool :=
  fun w => (Ok (is_registered (tracer_provider w)), w).

(** [with tracer.start_as_current_span(name) as span: body].  Leaving the
    block ends the span, and an exception leaving it goes on propagating.
    The tracer of the SDK records that exception on the span first; the no-op
    tracer of the API does not. *)
Definition with_span {A} (name : string) (body : M A) : M A :=
  emit (TraceCall (SpanStart name)) ;;
  try_except
    (a <- body ;; emit (TraceCall (SpanEnd name)) ;; ret a)
    (fun e =>
       recording <- tracer_is_recording ;;
       (if recording then span_record_exception name e else ret tt) ;;
       emit (TraceCall (SpanEnd name)) ;;
       raise e).

(** [l.append(x)] *)
Definition list_append {A} (l : list A) (x : A) : list A := (l ++ [x])%list.

Definition time_sleep (seconds : Q) : M unit := emit (Sleep seconds).

(** [a / b] on ints *)
Definition py_truediv (a b : Z) : M Q :=
  if (b =? 0)%Z then raise (ZeroDivisionError "division by zero")
  else ret (Float64.fl (inject_Z a / inject_Z b)).

(** [response.json()] *)
Definition response_json (r : Response) : M JSON :=
  match json_body r with
  | Ok j => ret j
  | Raise e => raise e
  end.

Section WithEnv.

Variable env : Env.

(** [time.time()]: the next reading of the system clock, as a float. *)
Definition time_time : M Q :=
  k <- count_clock_read ;;
  ret (Float64.fl (env_clock env k)).

(** [random.random()]: a multiple of [2^-53] in [[0, 1)]. *)
Definition random_random : M Q :=
  k <- count_rng_draw ;;
  ret (Qred (inject_Z (Z.of_N (env_random env k) mod 2 ^ 53) / inject_Z (2 ^ 53))).

(** [random.uniform(a, b)] on int arguments: [a + (b - a) * self.random()],
    where the difference is exact and the product and the sum are rounded. *)
Definition random_uniform (a b : Z) : M Q :=
  r <- random_random ;;
  ret (Float64.fadd (inject_Z a) (Float64.fmul (inject_Z (b - a)) r)).

(** [random.choice(seq)]: [seq[self._randbelow(len(seq))]] *)
Definition random_choice (seq : list Z) : M Z :=
  match seq with
  | [] => raise (LibraryError "IndexError" "Cannot choose from an empty sequence")
  | _ =>
      k <- count_rng_draw ;;
      ret (nth (env_index env k mod List.length seq)%nat seq 0)
  end.

(** [random.randint(a, b)]: [a + self._randbelow(b - a + 1)] *)
Definition random_randint (a b : Z) : M Z :=
  k <- count_rng_draw ;;
  ret (a + Z.of_nat (env_index env k mod Z.to_nat (b - a + 1))%nat).

(** [requests.get(url, timeout=t)]: one outbound call; it returns the response
    or raises. *)
Definition requests_get (url : string) (timeout : Z) : M Response :=
  k <- count_http_call ;;
  emit (HttpGet url timeout) ;;
  match env_http env k with
  | Returned r => ret r
  | Failed e => raise e
  end.

End WithEnv.

(* ================================================================= *)
(** ** The endpoints of [app/main.py] *)

Section Handlers.

Variable env : Env.

(** [GET /] *)
Definition root : M PyValue :=
  logger_info "Root endpoint accessed" [("user_action", JStr "view_home")] ;;
  ret (PyJson (JObj
    [("message", JStr "Hello from FastAPI with OpenTelemetry & Azure Monitor!");
     ("endpoints", JObj
        [("health", JStr "/health");
         ("info_log", JStr "/demo/info");
         ("warning_log", JStr "/demo/warning");
         ("error_log", JStr "/demo/error");
         ("exception", JStr "/demo/exception");
         ("metrics", JStr "/demo/metrics");
         ("custom_trace", JStr "/demo/trace");
         ("dependency", JStr "/demo/dependency");
         ("slow_operation", JStr "/demo/slow");
         ("all_telemetry", JStr "/demo/all")])])).

(** [GET /health] *)
Definition health : M PyValue :=
  logger_debug "Health check performed" [] ;;
  t <- time_time env ;;
  ret (PyJson (JObj [("status", JStr "healthy"); ("timestamp", JFloat t)])).

(** [GET /demo/info] *)
Definition demo_info_log : M PyValue :=
  logger_info "This is an informational message"
    [("event_type", JStr "user_action"); ("action", JStr "demo_info");
     ("user_id", JStr "user123")] ;;
  ret (PyJson (JObj [("message", JStr "INFO log sent to Azure Monitor")])).

(** [GET /demo/warning] *)
Definition demo_warning_log : M PyValue :=
  logger_warning "This is a warning message - something unusual happened"
    [("warning_type", JStr "unusual_behavior"); ("severity", JStr "medium");
     ("component", JStr "demo_service")] ;;
  ret (PyJson (JObj [("message", JStr "WARNING log sent to Azure Monitor")])).

(** [GET /demo/error] *)
Definition demo_error_log : M PyValue :=
  instrument_record error_counter (PyInt 1)
    [("error_type", JStr "logged_error"); ("endpoint", JStr "/demo/error")] ;;
  logger_error "This is an error message - operation failed"
    [("error_code", JStr "ERR_001"); ("operation", JStr "data_processing");
     ("retry_count", JInt 3)] ;;
  ret (PyJson (JObj [("message", JStr "ERROR log sent to Azure Monitor");
                     ("error_logged", JBool true)])).

Definition opt_eqb (o : option string) (s : string) : bool :=
  match o with Some s' => String.eqb s' s | None => false end.

(** [GET /demo/exception].  The body of the [try] falls through only in the
    [zero_division] branch, and only if the division returned. *)
Definition demo_exception (error_type : option string) : M PyValue :=
  instrument_record error_counter (PyInt 1)
    [("error_type", json_opt error_type); ("endpoint", JStr "/demo/exception")] ;;
  try_except
    (if opt_eqb error_type "runtime" then
       raise (RuntimeError "This is a simulated runtime error for testing")
     else if opt_eqb error_type "http" then
       raise (HTTPException 503 "Service temporarily unavailable")
     else if opt_eqb error_type "zero_division" then
       result <- py_truediv 1 0 ;;
       ret (PyJson JNull)
     else
       raise (ValueError ("Unknown error type: " ++ str_opt error_type)))
    (fun e =>
       if is_HTTPException e then raise e
       else
         logger_exception ("Exception occurred: " ++ type_name e)
           [("error_type", json_opt error_type);
            ("exception_class", JStr (type_name e))] e ;;
         raise (HTTPException 500 ("Internal error: " ++ str_exc e))).

(** [GET /demo/metrics] *)
Definition demo_metrics : M PyValue :=
  instrument_record request_counter (PyInt 1)
    [("endpoint", JStr "/demo/metrics"); ("method", JStr "GET")] ;;
  processing_time <- random_uniform env 10 500 ;;
  instrument_record processing_time_histogram (PyFloat processing_time)
    [("operation", JStr "demo_metrics")] ;;
  user_change <- random_choice env [-1; 1; 2] ;;
  instrument_record active_users_gauge (PyInt user_change)
    [("region", JStr "us-east")] ;;
  logger_info
    ("Custom metrics recorded: processing_time=" ++ format_2f processing_time
       ++ "ms, user_change=" ++ str_int user_change) [] ;;
  ret (PyJson (JObj
    [("message", JStr "Custom metrics sent to Azure Monitor");
     ("metrics", JObj
        [("request_count", JStr "+1");
         ("processing_time_ms", JFloat (Float64.round_ndigits processing_time 2));
         ("active_users_change", JInt user_change)])])).

(** [GET /demo/trace] *)
Definition demo_custom_trace : M PyValue :=
  with_span "custom_operation"
    (span_set_attribute "custom_operation" "operation.type" (JStr "demo") ;;
     span_set_attribute "custom_operation" "user.id" (JStr "user456") ;;
     span_set_attribute "custom_operation" "custom.property" (JStr "example_value") ;;
     time_sleep (Float64.fl (1 # 10)) ;;
     with_span "sub_operation"
       (span_set_attribute "sub_operation" "sub_task" (JStr "data_processing") ;;
        time_sleep (Float64.fl (5 # 100)) ;;
        span_add_event "sub_operation" "Processing started" [] ;;
        data_size <- random_randint env 100 1000 ;;
        span_set_attribute "sub_operation" "data.size" (JInt data_size) ;;
        span_add_event "sub_operation" "Processing completed"
          [("records_processed", JInt data_size)]) ;;
     span_add_event "custom_operation" "Operation completed successfully" [] ;;
     logger_info "Custom trace with nested spans created" []) ;;
  ret (PyJson (JObj
    [("message", JStr "Custom trace with nested spans sent to Azure Monitor")])).

(** [GET /demo/dependency] *)
Definition demo_dependency_tracking : M PyValue :=
  with_span "external_api_call"
    (span_set_attribute "external_api_call" "dependency.type" (JStr "http") ;;
     span_set_attribute "external_api_call" "dependency.target"
       (JStr "jsonplaceholder.typicode.com") ;;
     try_except
       (response <- requests_get env "https://jsonplaceholder.typicode.com/posts/1" 5 ;;
        span_set_attribute "external_api_call" "http.status_code"
          (JInt (status_code response)) ;;
        span_set_attribute "external_api_call" "dependency.success" (JBool true) ;;
        logger_info "External API called successfully"
          [("status_code", JInt (status_code response));
           ("response_time_ms",
            JFloat (Float64.fmul (elapsed_seconds response) 1000))] ;;
        data <- response_json response ;;
        ret (PyJson (JObj
          [("message", JStr "Dependency tracking demonstrated");
           ("external_api", JStr "jsonplaceholder.typicode.com");
           ("status_code", JInt (status_code response));
           ("data", data)])))
       (fun e =>
          span_set_attribute "external_api_call" "dependency.success" (JBool false) ;;
          span_record_exception "external_api_call" e ;;
          logger_error ("External API call failed: " ++ str_exc e) [] ;;
          raise (HTTPException 502 ("External service error: " ++ str_exc e)))).

(** [GET /demo/slow] *)
Definition demo_slow_operation : M PyValue :=
  with_span "slow_operation"
    (duration <- random_uniform env 1 3 ;;
     span_set_attribute "slow_operation" "operation.duration_seconds"
       (JFloat duration) ;;
     logger_warning
       ("Starting slow operation (will take " ++ format_2f duration ++ "s)")
       [("performance_warning", JBool true); ("expected_duration", JFloat duration)] ;;
     time_sleep duration ;;
     instrument_record processing_time_histogram
       (PyFloat (Float64.fmul duration 1000)) [("operation", JStr "slow_operation")] ;;
     logger_info "Slow operation completed"
       [("actual_duration", JFloat duration); ("performance_impact", JStr "high")] ;;
     ret (PyJson (JObj
       [("message", JStr "Slow operation completed");
        ("duration_seconds", JFloat (Float64.round_ndigits duration 2));
        ("note", JStr "Check Azure Monitor for performance metrics")]))).

(** [GET /demo/all].  [results] is the list the handler appends to. *)
Definition demo_all_telemetry : M PyValue :=
  with_span "comprehensive_demo"
    (span_set_attribute "comprehensive_demo" "demo.type" (JStr "comprehensive") ;;
     let results : list string := [] in
     logger_info "Comprehensive demo started" [("demo_id", JStr "all_telemetry")] ;;
     let results := list_append results "✓ INFO log" in
     logger_warning "This is part of the comprehensive demo"
       [("warning_level", JStr "informational")] ;;
     let results := list_append results "✓ WARNING log" in
     instrument_record request_counter (PyInt 1)
       [("endpoint", JStr "/demo/all"); ("demo", JStr "comprehensive")] ;;
     instrument_record processing_time_histogram (PyInt 250)
       [("operation", JStr "comprehensive_demo")] ;;
     instrument_record active_users_gauge (PyInt 1) [("region", JStr "demo")] ;;
     let results := list_append results "✓ Custom metrics (counter, histogram, gauge)" in
     with_span "demo_sub_operation"
       (span_add_event "demo_sub_operation" "Sub-operation started" [] ;;
        time_sleep (Float64.fl (1 # 10)) ;;
        span_set_attribute "demo_sub_operation" "records_processed" (JInt 42) ;;
        span_add_event "demo_sub_operation" "Sub-operation completed" []) ;;
     let results := list_append results "✓ Custom nested trace" in
     results <-
       try_except
         (response <- requests_get env "https://jsonplaceholder.typicode.com/users/1" 5 ;;
          span_set_attribute "comprehensive_demo" "dependency.called" (JBool true) ;;
          ret (list_append results ("✓ Dependency tracking (status: "
                                 ++ str_int (status_code response) ++ ")")))
         (fun e =>
            logger_error ("Dependency call failed: " ++ str_exc e) [] ;;
            ret (list_append results "✗ Dependency tracking (failed)")) ;;
     logger_error "Simulated error for demo purposes"
       [("is_demo", JBool true); ("error_code", JStr "DEMO_ERR")] ;;
     instrument_record error_counter (PyInt 1)
       [("error_type", JStr "simulated"); ("endpoint", JStr "/demo/all")] ;;
     let results := list_append results "✓ ERROR log" in
     results <-
       try_except
         (raise (ValueError "This is a controlled exception for demo"))
         (fun e =>
            match e with
            | ValueError _ =>
                logger_exception "Caught exception in comprehensive demo" [] e ;;
                span_record_exception "comprehensive_demo" e ;;
                ret (list_append results "✓ Exception (caught and logged)")
            | _ => raise e
            end) ;;
     logger_info "Comprehensive demo completed"
       [("telemetry_types_generated", JInt (Z.of_nat (List.length results)))] ;;
     ret (PyJson (JObj
       [("message", JStr "All telemetry types generated successfully!");
        ("telemetry_generated", JList (map JStr results));
        ("total_types", JInt (Z.of_nat (List.length results)));
        ("note", JStr "Check Azure Monitor Application Insights in 2-5 minutes")]))).

(** The handler registered with [@app.exception_handler(Exception)]. *)
Definition global_exception_handler (request : Request) (exc : PyExc) : M PyValue :=
  logger_exception ("Unhandled exception on " ++ req_path request)
    [("path", JStr (req_path request)); ("method", JStr (req_method request))] exc ;;
  ret (PyJson (JObj
    [("error", JStr "Internal server error");
     ("detail", JStr (str_exc exc));
     ("path", JStr (req_path request))])).

End Handlers.

(* ================================================================= *)
(** ** Settings ([app/config.py]) *)

Record Settings := {
  app_name : string;
  app_version : string;
  environment : string;
  host : string;
  port : Z;
  applicationinsights_connection_string : option string;
  applicationid : option string;
  otel_service_name : string;
  log_level : string
}.

(** The field defaults of [Settings], in force when the process environment
    sets none of them. *)
Definition default_settings : Settings :=
  {| app_name := "azure-monitor-demo";
     app_version := "1.0.0";
     environment := "development";
     host := "0.0.0.0";
     port := 8000;
     applicationinsights_connection_string := None;
     applicationid := None;
     otel_service_name := "fastapi-otel-azure";
     log_level := "INFO" |}.

(** The application handle [FastAPI(title=..., description=..., version=...)]. *)
Record FastAPI := {
  title : string;
  description : string;
  version : string
}.

Module Main.

(** [app = FastAPI(...)] of [app/main.py]. *)
Definition app : FastAPI :=
  {| title := "FastAPI + OpenTelemetry + Azure Monitor";
     description := "Comprehensive demo showcasing all Azure Monitor telemetry types";
     version := "1.0.0" |}.

End Main.

(* ================================================================= *)
(** ** Telemetry bootstrap ([app/telemetry.py]) *)

(** The third-party code behind the calls of [setup_telemetry], as far as it
    is not the OpenTelemetry registry itself.  What it does to the process
    is its own: [parse_error] is the verdict of the connection-string parser
    of the Azure Monitor exporters, the message of the [ValueError] it
    raises on a string it refuses; [distro] is what [configure_azure_monitor]
    does with its options, and [instrumentor] what an instrumentor does when
    asked to instrument. *)
Record Sdk := {
  parse_error : string -> option string;
  distro : AzureMonitorOptions -> M unit;
  instrumentor : Instrumentation -> M unit
}.

Module Registry.

Definition update (f : World -> World) : M unit := fun w => (Ok tt, f w).

(** [TracerProvider(resource=r)], [MeterProvider(resource=r, metric_readers=l)],
    [LoggerProvider(resource=r)]: a new provider object. *)
Definition new_provider (r : Resource) (ps : list Processor) : M ProviderId :=
  fun w =>
    (Ok (List.length (providers w)),
     {| providers := (providers w ++ [{| resource := r; processors := ps |}])%list;
        tracer_provider := tracer_provider w;
        meter_provider := meter_provider w; logger_provider := logger_provider w;
        root_handlers := root_handlers w; root_level := root_level w;
        instrumented := instrumented w; azure_monitor := azure_monitor w;
        trace := trace w;
        rng_draws := rng_draws w; clock_reads := clock_reads w;
        http_calls := http_calls w |}).

Fixpoint heap_update (i : nat) (f : Provider -> Provider) (h : list Provider)
    : list Provider :=
  match h, i with
  | [], _ => []
  | p :: h', O => f p :: h'
  | p :: h', S i' => p :: heap_update i' f h'
  end.

(** [provider.add_span_processor(p)], [provider.add_log_record_processor(p)]:
    mutate the provider object in place. *)
Definition add_processor (id : ProviderId) (p : Processor) : M unit :=
  update (fun w =>
    {| providers :=
         heap_update id
           (fun pr => {| resource := resource pr;
                         processors := (processors pr ++ [p])%list |})
           (providers w);
       tracer_provider := tracer_provider w;
       meter_provider := meter_provider w; logger_provider := logger_provider w;
       root_handlers := root_handlers w; root_level := root_level w;
       instrumented := instrumented w; azure_monitor := azure_monitor w;
       trace := trace w;
       rng_draws := rng_draws w; clock_reads := clock_reads w;
       http_calls := http_calls w |}).

(** The global setters of the OpenTelemetry API register a provider once:
    a later call leaves the registered one in place. *)
Definition set_once (cur : option ProviderId) (id : ProviderId) : option ProviderId :=
  match cur with Some _ => cur | None => Some id end.

Definition set_tracer_provider (id : ProviderId) : M unit :=
  update (fun w =>
    {| providers := providers w;
       tracer_provider := set_once (tracer_provider w) id;
       meter_provider := meter_provider w; logger_provider := logger_provider w;
       root_handlers := root_handlers w; root_level := root_level w;
       instrumented := instrumented w; azure_monitor := azure_monitor w;
       trace := trace w;
       rng_draws := rng_draws w; clock_reads := clock_reads w;
       http_calls := http_calls w |}).

Definition set_meter_provider (id : ProviderId) : M unit :=
  update (fun w =>
    {| providers := providers w;
       tracer_provider := tracer_provider w;
       meter_provider := set_once (meter_provider w) id;
       logger_provider := logger_provider w;
       root_handlers := root_handlers w; root_level := root_level w;
       instrumented := instrumented w; azure_monitor := azure_monitor w;
       trace := trace w;
       rng_draws := rng_draws w; clock_reads := clock_reads w;
       http_calls := http_calls w |}).

Definition set_logger_provider (id : ProviderId) : M unit :=
  update (fun w =>
    {| providers := providers w;
       tracer_provider := tracer_provider w;
       meter_provider := meter_provider w;
       logger_provider := set_once (logger_provider w) id;
       root_handlers := root_handlers w; root_level := root_level w;
       instrumented := instrumented w; azure_monitor := azure_monitor w;
       trace := trace w;
       rng_draws := rng_draws w; clock_reads := clock_reads w;
       http_calls := http_calls w |}).

(** [X.from_connection_string(connection_string)]: the exporter, unless the
    parser refuses the string. *)
Definition from_connection_string (sdk : Sdk) (exporter : string -> Exporter)
    (connection_string : string) : M Exporter :=
  match parse_error sdk connection_string with
  | None => ret (exporter connection_string)
  | Some msg => raise (ValueError msg)
  end.

(** [configure_azure_monitor(...)]: the call is noted, and the distro does
    with the options what it does: it may register providers of its own, add
    handlers, instrument libraries, or raise. *)
Definition configure_azure_monitor (sdk : Sdk) (o : AzureMonitorOptions) : M unit :=
  update (fun w =>
    {| providers := providers w;
       tracer_provider := tracer_provider w;
       meter_provider := meter_provider w; logger_provider := logger_provider w;
       root_handlers := root_handlers w; root_level := root_level w;
       instrumented := instrumented w;
       azure_monitor := (azure_monitor w ++ [o])%list;
       trace := trace w;
       rng_draws := rng_draws w; clock_reads := clock_reads w;
       http_calls := http_calls w |}) ;;
  distro sdk o.

(** [X.instrument(...)], [FastAPIInstrumentor.instrument_app(...)]: the call
    is noted, and the instrumentor does what it does. *)
Definition instrument (sdk : Sdk) (i : Instrumentation) : M unit :=
  update (fun w =>
    {| providers := providers w;
       tracer_provider := tracer_provider w;
       meter_provider := meter_provider w; logger_provider := logger_provider w;
       root_handlers := root_handlers w; root_level := root_level w;
       instrumented := (instrumented w ++ [i])%list;
       azure_monitor := azure_monitor w;
       trace := trace w;
       rng_draws := rng_draws w; clock_reads := clock_reads w;
       http_calls := http_calls w |}) ;;
  instrumentor sdk i.

End Registry.

Module RootLogger.

Definition set_handlers (hs : list Handler) (w : World) : World :=
  {| providers := providers w;
     tracer_provider := tracer_provider w;
     meter_provider := meter_provider w; logger_provider := logger_provider w;
     root_handlers := hs; root_level := root_level w;
     instrumented := instrumented w; azure_monitor := azure_monitor w;
     trace := trace w;
     rng_draws := rng_draws w; clock_reads := clock_reads w;
     http_calls := http_calls w |}.

(** [logging.getLogger().addHandler(h)] *)
Definition addHandler (h : Handler) : M unit :=
  Registry.update (fun w => set_handlers (root_handlers w ++ [h])%list w).

(** [logging.getLogger().setLevel(lvl)] *)
Definition setLevel (lvl : Level) : M unit :=
  Registry.update (fun w =>
    {| providers := providers w;
       tracer_provider := tracer_provider w;
       meter_provider := meter_provider w; logger_provider := logger_provider w;
       root_handlers := root_handlers w; root_level := lvl;
       instrumented := instrumented w; azure_monitor := azure_monitor w;
       trace := trace w;
       rng_draws := rng_draws w; clock_reads := clock_reads w;
       http_calls := http_calls w |}).

(** [logging.basicConfig()] with no argument: a root logger that has no
    handler gets a stream handler; one that has a handler is left alone. *)
Definition basicConfig : M unit :=
  Registry.update (fun w =>
    match root_handlers w with
    | [] => set_handlers [StreamHandler] w
    | _ :: _ => w
    end).

(** The module-level [logging.warning(msg)]: it calls [basicConfig()] when
    the root logger has no handler, then logs on the root logger. *)
Definition warning (msg : string) : M unit :=
  basicConfig ;;
  Logging.log "root" WARNING msg [] None.

End RootLogger.

(** [setup_telemetry(app)], reading the module-level [settings]. *)
Definition setup_telemetry (sdk : Sdk) (settings : Settings) (app : FastAPI)
    : M unit :=
  let connection_string := applicationinsights_connection_string settings in
  let service_name :=
    if String.eqb (otel_service_name settings) "" then app_name settings
    else otel_service_name settings in
  match connection_string with
  | None | Some EmptyString =>
      RootLogger.warning
        ("APPLICATIONINSIGHTS_CONNECTION_STRING is not set. "
           ++ "Telemetry will not be sent to Azure Monitor.")
  | Some connection_string =>
      let resource :=
        {| service_name := service_name;
           service_version := app_version settings;
           deployment_environment := environment settings |} in
      (* traces *)
      tracer_provider <- Registry.new_provider resource [] ;;
      Registry.set_tracer_provider tracer_provider ;;
      trace_exporter <-
        Registry.from_connection_string sdk AzureMonitorTraceExporter
          connection_string ;;
      let span_processor := BatchSpanProcessor trace_exporter in
      Registry.add_processor tracer_provider span_processor ;;
      (* metrics *)
      metric_exporter <-
        Registry.from_connection_string sdk AzureMonitorMetricExporter
          connection_string ;;
      let metric_reader := PeriodicExportingMetricReader metric_exporter in
      meter_provider <- Registry.new_provider resource [metric_reader] ;;
      Registry.set_meter_provider meter_provider ;;
      Registry.configure_azure_monitor sdk
        {| am_connection_string := connection_string;
           am_enable_live_metrics := true;
           am_logger_name := "app.main" |} ;;
      (* logs *)
      logger_provider <- Registry.new_provider resource [] ;;
      Registry.set_logger_provider logger_provider ;;
      log_exporter <-
        Registry.from_connection_string sdk AzureMonitorLogExporter
          connection_string ;;
      Registry.add_processor logger_provider (BatchLogRecordProcessor log_exporter) ;;
      RootLogger.addHandler (LoggingHandler NOTSET logger_provider) ;;
      RootLogger.setLevel INFO ;;
      (* instrumentation *)
      Registry.instrument sdk (FastAPIInstrumentor (title app) tracer_provider) ;;
      Registry.instrument sdk RequestsInstrumentor ;;
      Registry.instrument sdk (LoggingInstrumentor true) ;;
      Logging.log "app.telemetry" INFO
        ("OpenTelemetry with Azure Monitor configured for " ++ service_name) [] None
  end.

(* ================================================================= *)
(** ** The application: routes and the framework around them *)

Inductive Endpoint : Type :=
| Root | Health | DemoInfo | DemoWarning | DemoError | DemoException
| DemoMetrics | DemoTrace | DemoDependency | DemoSlow | DemoAll.

Definition all_endpoints : list Endpoint :=
  [Root; Health; DemoInfo; DemoWarning; DemoError; DemoException;
   DemoMetrics; DemoTrace; DemoDependency; DemoSlow; DemoAll].

Definition path_of (ep : Endpoint) : string :=
  match ep with
  | Root => "/"
  | Health => "/health"
  | DemoInfo => "/demo/info"
  | DemoWarning => "/demo/warning"
  | DemoError => "/demo/error"
  | DemoException => "/demo/exception"
  | DemoMetrics => "/demo/metrics"
  | DemoTrace => "/demo/trace"
  | DemoDependency => "/demo/dependency"
  | DemoSlow => "/demo/slow"
  | DemoAll => "/demo/all"
  end.

(** The value of a query parameter; of several, the last one. *)
Fixpoint query_get (k : string) (q : list (string * string)) : option string :=
  match q with
  | [] => None
  | (k', v) :: q' =>
      match query_get k q' with
      | Some v' => Some v'
      | None => if String.eqb k k' then Some v else None
      end
  end.

(** [Query(default=d)]: the parameter when the request has it, else [d]. *)
Definition Query (default : string) (k : string) (request : Request) : option string :=
  match query_get k (req_query request) with
  | Some v => Some v
  | None => Some default
  end.

Definition route (env : Env) (ep : Endpoint) (request : Request) : M PyValue :=
  match ep with
  | Root => root
  | Health => health env
  | DemoInfo => demo_info_log
  | DemoWarning => demo_warning_log
  | DemoError => demo_error_log
  | DemoException => demo_exception (Query "runtime" "error_type" request)
  | DemoMetrics => demo_metrics env
  | DemoTrace => demo_custom_trace env
  | DemoDependency => demo_dependency_tracking env
  | DemoSlow => demo_slow_operation env
  | DemoAll => demo_all_telemetry env
  end.

Definition JSONResponse (status : Z) (content : JSON) : HttpResponse :=
  {| resp_status := status; resp_body := JsonBody content |}.

(** The parts of a value that cannot be written as JSON, in the order of
    the value. *)
Fixpoint refusals (j : JSON) : list Refusal :=
  match j with
  | JRefused why => [why]
  | JList l =>
      (fix all (l : list JSON) : list Refusal :=
         match l with
         | [] => []
         | x :: l' => (refusals x ++ all l')%list
         end) l
  | JObj kv =>
      (fix all (kv : list (string * JSON)) : list Refusal :=
         match kv with
         | [] => []
         | (_, x) :: kv' => (refusals x ++ all kv')%list
         end) kv
  | _ => []
  end.

Definition is_TooDeep (why : Refusal) : bool :=
  match why with TooDeep => true | _ => false end.

Definition is_NonFinite (why : Refusal) : bool :=
  match why with NonFinite => true | _ => false end.

(** What the framework raises on a value it cannot write.  It first copies
    the value with [jsonable_encoder], which fails on one nested too deep;
    the body of the [JSONResponse] is then
    [json.dumps(content, ensure_ascii=False, allow_nan=False).encode("utf-8")]:
    [dumps] refuses a float that is not finite, and the encoding, which comes
    last, a surrogate without its pair.  The messages keep the wording of the
    interpreter without the value, character or position it adds. *)
Definition encoder_error (found : list Refusal) : PyExc :=
  if existsb is_TooDeep found then
    LibraryError "RecursionError" "maximum recursion depth exceeded"
  else if existsb is_NonFinite found then
    ValueError "Out of range float values are not JSON compliant"
  else
    LibraryError "UnicodeEncodeError"
      "'utf-8' codec can't encode character: surrogates not allowed".

(** What the framework does with the value a route returns: a [JSONResponse]
    with status 200, when the value can be written. *)
Definition render (content : JSON) : Outcome HttpResponse :=
  match refusals content with
  | [] => Ok (JSONResponse 200 content)
  | why :: more => Raise (encoder_error (why :: more))
  end.

(** A value the framework can send as JSON. *)
Definition renderable (content : JSON) : bool :=
  match refusals content with [] => true | _ :: _ => false end.

(** The framework's own handler of [HTTPException]. *)
Definition http_exception_handler (status : Z) (detail : string) : HttpResponse :=
  JSONResponse status (JObj [("detail", JStr detail)]).

(** What the server answers when the application itself fails. *)
Definition server_error_response : HttpResponse :=
  {| resp_status := 500; resp_body := TextBody "Internal Server Error" |}.

Definition get_request (ep : Endpoint) (query : list (string * string)) : Request :=
  {| req_method := "GET"; req_path := path_of ep; req_query := query |}.

(** The framework around the handler registered for [Exception]: it awaits
    the handler and then invokes what the handler returned as a response
    object.  A value that is not a response object cannot be invoked, the
    failure leaves the application, and the server answers in its place. *)
Definition server_error_middleware (request : Request) (exc : PyExc) (w : World)
    : HttpResponse * World :=
  match global_exception_handler request exc w with
  | (Ok (PyResponse r), w') => (r, w')
  | (Ok (PyJson _), w') => (server_error_response, w')
  | (Raise _, w') => (server_error_response, w')
  end.

(** One [GET] request through the application.  A route's return value is
    sent as JSON with status 200 unless it is a response already; an
    [HTTPException] goes to the framework's handler; any other exception,
    that of a value that cannot be rendered included, goes to the handler
    registered for [Exception]. *)
Definition handle (env : Env) (ep : Endpoint) (query : list (string * string))
    (w : World) : HttpResponse * World :=
  let request := get_request ep query in
  match route env ep request w with
  | (Ok (PyResponse r), w') => (r, w')
  | (Ok (PyJson j), w') =>
      match render j with
      | Ok r => (r, w')
      | Raise exc => server_error_middleware request exc w'
      end
  | (Raise (HTTPException status detail), w') =>
      (http_exception_handler status detail, w')
  | (Raise exc, w') => server_error_middleware request exc w'
  end.


(** The process before [app.main] is imported: nothing registered, the root
    logger as the logging module creates it. *)
Definition initial_world : World :=
  {| providers := []; tracer_provider := None; meter_provider := None;
     logger_provider := None; root_handlers := []; root_level := WARNING;
     instrumented := []; azure_monitor := []; trace := [];
     rng_draws := 0; clock_reads := 0; http_calls := 0 |}.

(* ================================================================= *)
(** ** Observations used to state the properties *)

Definition json_field (k : string) (j : JSON) : option JSON :=
  match j with
  | JObj kv => dict_get k kv
  | _ => None
  end.

(** A field of a JSON response body. *)
Definition response_field (k : string) (r : HttpResponse) : option JSON :=
  match resp_body r with
  | JsonBody j => json_field k j
  | TextBody _ => None
  end.

(** The value [error_type] has in a call of [GET /demo/exception]. *)
Definition error_type_param (query : list (string * string)) : option string :=
  Query "runtime" "error_type" (get_request DemoException query).

(** Sum of the integer amounts added to an instrument along a trace. *)
Fixpoint counter_total (name : string) (t : list Event) : Z :=
  match t with
  | [] => 0
  | MetricCall {| instrument := i; amount := PyInt n |} :: t' =>
      (if String.eqb i name then n else 0) + counter_total name t'
  | _ :: t' => counter_total name t'
  end.


(** Seconds spent in [time.sleep] along a trace. *)
Fixpoint time_slept (t : list Event) : Q :=
  match t with
  | [] => 0
  | Sleep d :: t' => d + time_slept t'
  | _ :: t' => time_slept t'
  end.

(** Wall-clock time of the call that took the world from [w] to [w']: the
    time it slept, and [overhead] seconds for everything else (computation,
    scheduling, oversleeping). *)
Definition wall_clock (overhead : Q) (w w' : World) : Q :=
  time_slept (skipn (List.length (trace w)) (trace w')) + overhead.

(** [not connection_string] *)
Definition is_absent (s : option string) : bool :=
  match s with
  | None | Some EmptyString => true
  | Some _ => false
  end.

(** The status codes the interface documents for each endpoint. *)
Definition documented_statuses (ep : Endpoint) : list Z :=
  match ep with
  | DemoException => [503; 500]
  | DemoDependency => [200; 502]
  | _ => [200]
  end.

(** The part of the world that telemetry registration writes. *)
Definition registry (w : World) :=
  (providers w, tracer_provider w, meter_provider w, logger_provider w,
   instrumented w, azure_monitor w).

(** The configuration of the root logger. *)
Definition root_logger (w : World) : list Handler * Level :=
  (root_handlers w, root_level w).

(** Sample environments and requests. *)
Module Samples.

Definition timeout_error : PyExc :=
  LibraryError "ConnectTimeout" "HTTPSConnectionPool: connection timed out".

(** A stopped clock, a generator that draws zeros, an unreachable network. *)
Definition quiet_env : Env :=
  {| env_random := fun _ => 0%N;
     env_index := fun _ => 0%nat;
     env_clock := fun _ => 1700000000 # 1;
     env_http := fun _ => Failed timeout_error |}.

(** A generator whose draw makes [random.uniform(1, 3)] about 1.996. *)
Definition slow_env : Env :=
  {| env_random := fun _ => 4485585228861014%N;
     env_index := fun _ => 1%nat;
     env_clock := fun k => ((1700000000 # 1) + inject_Z (Z.of_nat k))%Q;
     env_http := fun _ => Failed timeout_error |}.


(** A third party that answers 200 with a JSON object. *)
Definition json_env : Env :=
  {| env_random := fun _ => 0%N;
     env_index := fun _ => 0%nat;
     env_clock := fun _ => 1700000000 # 1;
     env_http := fun _ =>
       Returned {| status_code := 200; elapsed_seconds := 1 # 4;
                   json_body := Ok (JObj [("id", JInt 1); ("title", JStr "t")]) |} |}.

(** A third party that answers 200 with the JSON text [{"x": 1e400}], which
    [response.json()] decodes to a dictionary holding the float infinity. *)
Definition overflow_env : Env :=
  {| env_random := fun _ => 0%N;
     env_index := fun _ => 0%nat;
     env_clock := fun _ => 1700000000 # 1;
     env_http := fun _ =>
       Returned {| status_code := 200; elapsed_seconds := 1 # 4;
                   json_body := Ok (JObj [("x", JRefused NonFinite)]) |} |}.

(** Third-party code that accepts one connection string and does nothing
    else to the process. *)
Definition accepted_connection_string : string :=
  "InstrumentationKey=00000000-0000-0000-0000-000000000000".

Definition sdk : Sdk :=
  {| parse_error := fun connection_string =>
       if String.eqb connection_string accepted_connection_string then None
       else Some "Invalid instrumentation key. It should be a valid UUID.";
     distro := fun _ => ret tt;
     instrumentor := fun _ => ret tt |}.

(** The default settings with a connection string. *)
Definition settings_with (connection_string : string) : Settings :=
  {| app_name := app_name default_settings;
     app_version := app_version default_settings;
     environment := environment default_settings;
     host := host default_settings; port := port default_settings;
     applicationinsights_connection_string := Some connection_string;
     applicationid := None;
     otel_service_name := otel_service_name default_settings;
     log_level := log_level default_settings |}.

End Samples.

(** Whether the answer of the [k]-th outbound call leaves [/demo/dependency]
    with a value the framework can send: it does not when the payload decodes
    to a value that cannot be rendered. *)
Definition echo_renderable (env : Env) (k : nat) : bool :=
  match env_http env k with
  | Returned response =>
      match json_body response with
      | Ok data => renderable data
      | Raise _ => true
      end
  | Failed _ => true
  end.


(* ================================================================= *)
(** ** Observations on whole calls *)

(** The events a call added to the trace of [w] on its way to [w']. *)
Definition new_events (w w' : World) : list Event :=
  skipn (List.length (trace w)) (trace w').

(** The same world with another trace. *)
Definition with_trace (t : list Event) (w : World) : World :=
  {| providers := providers w; tracer_provider := tracer_provider w;
     meter_provider := meter_provider w; logger_provider := logger_provider w;
     root_handlers := root_handlers w; root_level := root_level w;
     instrumented := instrumented w; azure_monitor := azure_monitor w;
     trace := t;
     rng_draws := rng_draws w; clock_reads := clock_reads w;
     http_calls := http_calls w |}.

(** Span calls are well nested along a trace: a span ends only as the
    innermost open one, attributes, events and exceptions go to a span that is
    open, and no span is left open at the end.  [stack] holds the open spans,
    innermost first. *)
Fixpoint spans_balanced (stack : list string) (t : list Event) : bool :=
  match t with
  | [] => match stack with [] => true | _ :: _ => false end
  | TraceCall (SpanStart n) :: t' => spans_balanced (n :: stack) t'
  | TraceCall (SpanEnd n) :: t' =>
      match stack with
      | top :: rest => String.eqb n top && spans_balanced rest t'
      | [] => false
      end
  | TraceCall (SetAttribute n _ _) :: t'
  | TraceCall (AddEvent n _ _) :: t'
  | TraceCall (RecordException n _) :: t' =>
      existsb (String.eqb n) stack && spans_balanced stack t'
  | _ :: t' => spans_balanced stack t'
  end.

(** The outbound calls along a trace: URL and timeout of each. *)
Fixpoint http_gets (t : list Event) : list (string * Z) :=
  match t with
  | [] => []
  | HttpGet url timeout :: t' => (url, timeout) :: http_gets t'
  | _ :: t' => http_gets t'
  end.

(** The log calls along a trace. *)
Fixpoint log_calls (t : list Event) : list LogRecord :=
  match t with
  | [] => []
  | LogCall r :: t' => r :: log_calls t'
  | _ :: t' => log_calls t'
  end.

(** The metric calls along a trace. *)
Fixpoint metric_calls (t : list Event) : list Measurement :=
  match t with
  | [] => []
  | MetricCall m :: t' => m :: metric_calls t'
  | _ :: t' => metric_calls t'
  end.

(** The values a span attribute is set to along a trace, in order. *)
Fixpoint attribute_values (span key : string) (t : list Event) : list JSON :=
  match t with
  | [] => []
  | TraceCall (SetAttribute n k v) :: t' =>
      if String.eqb n span && String.eqb k key
      then v :: attribute_values span key t'
      else attribute_values span key t'
  | _ :: t' => attribute_values span key t'
  end.

(** The route registered for a path, if any: the routes are the eleven
    [@app.get] decorators, none with a path parameter. *)
Definition resolve (path : string) : option Endpoint :=
  find (fun ep => String.eqb (path_of ep) path) all_endpoints.

(** Requests served one after the other by the same process. *)
Fixpoint serve (env : Env) (requests : list (Endpoint * list (string * string)))
    (w : World) : list HttpResponse * World :=
  match requests with
  | [] => ([], w)
  | (ep, query) :: rest =>
      let (r, w') := handle env ep query w in
      let (rs, w'') := serve env rest w' in
      (r :: rs, w'')
  end.

(** The endpoints whose handler adds to the error counter, and those whose
    handler adds to the request counter. *)
Definition counts_error (ep : Endpoint) : bool :=
  match ep with
  | DemoError | DemoException | DemoAll => true
  | _ => false
  end.

Definition counts_request (ep : Endpoint) : bool :=
  match ep with
  | DemoMetrics | DemoAll => true
  | _ => false
  end.

(** The exceptions recorded on a span along a trace, in order. *)
Fixpoint recorded_exceptions (span : string) (t : list Event) : list PyExc :=
  match t with
  | [] => []
  | TraceCall (RecordException n e) :: t' =>
      if String.eqb n span then e :: recorded_exceptions span t'
      else recorded_exceptions span t'
  | _ :: t' => recorded_exceptions span t'
  end.

(** The resource [setup_telemetry] describes the service with. *)
Definition service_resource (settings : Settings) : Resource :=
  {| service_name :=
       if String.eqb (otel_service_name settings) "" then app_name settings
       else otel_service_name settings;
     service_version := app_version settings;
     deployment_environment := environment settings |}.

(* ================================================================= *)
(** ** Scripts that print: a process and its standard output *)

Module Script.

Record Console := {
  process : World;
  stdout : list string        (* one entry per [print] call, oldest first *)
}.

Definition Script (A : Type) : Type := Console -> Outcome A * Console.

Definition ret {A} (a : A) : Script A := fun c => (Ok a, c).

Definition bind {A B} (m : Script A) (k : A -> Script B) : Script B :=
  fun c =>
    match m c with
    | (Ok a, c') => k a c'
    | (Raise e, c') => (Raise e, c')
    end.

Definition raise {A} (e : PyExc) : Script A := fun c => (Raise e, c).

(** [try: body  except ...: handler e], the handler re-raising what it does
    not catch. *)
Definition try_except {A} (body : Script A) (handler : PyExc -> Script A)
    : Script A :=
  fun c =>
    match body c with
    | (Ok a, c') => (Ok a, c')
    | (Raise e, c') => handler e c'
    end.

(** A library call of the process. *)
Definition lift {A} (m : M A) : Script A :=
  fun c =>
    match m (process c) with
    | (o, w') => (o, {| process := w'; stdout := stdout c |})
    end.

(** [print(s)] *)
Definition print (s : string) : Script unit :=
  fun c => (Ok tt, {| process := process c; stdout := (stdout c ++ [s])%list |}).

End Script.

Declare Scope script_scope.
Delimit Scope script_scope with script.
Notation "x <- c ;; k" := (Script.bind c (fun x => k))
  (at level 61, c at next level, right associativity) : script_scope.
Notation "c ;; k" := (Script.bind c (fun _ => k))
  (at level 61, right associativity) : script_scope.

(** [random.choice(seq)] on any sequence. *)
Definition random_choice_of {A} (env : Env) (seq : list A) : M A :=
  match seq with
  | [] => raise (LibraryError "IndexError" "Cannot choose from an empty sequence")
  | _ =>
      k <- count_rng_draw ;;
      match nth_error seq (env_index env k mod List.length seq)%nat with
      | Some x => ret x
      | None => raise (LibraryError "IndexError" "list index out of range")
      end
  end.

(** The line feed of ["\n"]. *)
Definition nl : string := String (ascii_of_nat 10) "".

(** [f"{x:.1f}"]: the exact value rounded to one decimal, ties to even. *)
Definition format_1f (x : Q) : string :=
  let n := Float64.rne (Qabs x * 10) in
  (if Qle_bool 0 x then "" else "-")
    ++ str_int (n / 10) ++ "." ++ str_int (n mod 10).

(** Floats as sign and magnitude, for the computations whose result can be a
    zero: the sign of a zero shows when it is printed. *)
Module SignedFloat.

Record t := {
  negative : bool;
  magnitude : Q           (* a binary64 number, not negative *)
}.

(** [a / b] on ints: the quotient correctly rounded; its sign is negative
    when exactly one of [a] and [b] is, a zero [a] counting as positive. *)
Definition truediv (a b : Z) : M t :=
  if (b =? 0)%Z then raise (ZeroDivisionError "division by zero")
  else ret {| negative := xorb (a <? 0)%Z (b <? 0)%Z;
              magnitude := Float64.fl (inject_Z (Z.abs a) / inject_Z (Z.abs b)) |}.

(** [x * n] for an int [n], which is converted to a float first: the sign
    of the product is the exclusive or of the signs, that of a zero too. *)
Definition mul_int (x : t) (n : Z) : t :=
  {| negative := xorb (negative x) (n <? 0)%Z;
     magnitude := Float64.fmul (magnitude x) (inject_Z (Z.abs n)) |}.

(** [f"{x:.1f}"]: the sign, then the magnitude rounded to one decimal. *)
Definition format_1f (x : t) : string :=
  (if negative x then "-" else "") ++ format_1f (magnitude x).

End SignedFloat.

(** [isinstance(e, requests.exceptions.RequestException)]: the exception
    classes of the requests library. *)
Definition is_RequestException (e : PyExc) : bool :=
  match e with
  | LibraryError cls _ =>
      existsb (String.eqb cls)
        ["RequestException"; "InvalidJSONError"; "JSONDecodeError"; "HTTPError";
         "ConnectionError"; "ProxyError"; "SSLError"; "Timeout"; "ConnectTimeout";
         "ReadTimeout"; "URLRequired"; "TooManyRedirects"; "MissingSchema";
         "InvalidSchema"; "InvalidURL"; "InvalidHeader"; "InvalidProxyURL";
         "ChunkedEncodingError"; "ContentDecodingError"; "StreamConsumedError";
         "RetryError"; "UnrewindableBodyError"]
  | _ => false
  end.

(* ================================================================= *)
(** ** The load test ([tests/load_testing.py]) *)

Module LoadTesting.

Local Open Scope script_scope.

Definition BASE_URL : string := "http://localhost:8000".

Definition ENDPOINTS : list string :=
  ["/demo/info"; "/demo/warning"; "/demo/error"; "/demo/metrics"; "/demo/trace";
   "/demo/dependency"; "/demo/all"; "/demo/http-errors/400";
   "/demo/http-errors/404"; "/demo/http-errors/500"; "/demo/http-errors/503"].

(** The text of [(error_count/iterations)*100:.1f], on floats with their
    sign. *)
Definition error_rate (error_count iterations : Z) : Script.Script string :=
  ratio <- Script.lift (SignedFloat.truediv error_count iterations) ;;
  Script.ret (SignedFloat.format_1f (SignedFloat.mul_int ratio 100)).

Section WithEnv.

Variable env : Env.

(** One round of the [for] loop: [i] is the loop variable, the counts go in
    and come out. *)
Definition iteration (iterations i : Z) (counts : Z * Z) : Script.Script (Z * Z) :=
  let (success_count, error_count) := counts in
  endpoint <- Script.lift (random_choice_of env ENDPOINTS) ;;
  counts' <-
    Script.try_except
      (response <- Script.lift (requests_get env (BASE_URL ++ endpoint) 10) ;;
       if (status_code response <? 400)%Z then
         Script.print ("✅ Request " ++ str_int (i + 1) ++ "/" ++ str_int iterations
                         ++ ": " ++ endpoint ++ " → "
                         ++ str_int (status_code response)) ;;
         Script.ret ((success_count + 1)%Z, error_count)
       else
         Script.print ("❌ Request " ++ str_int (i + 1) ++ "/" ++ str_int iterations
                         ++ ": " ++ endpoint ++ " → "
                         ++ str_int (status_code response)) ;;
         Script.ret (success_count, (error_count + 1)%Z))
      (fun e =>
         if is_RequestException e then
           Script.print ("❌ Request " ++ str_int (i + 1) ++ "/"
                           ++ str_int iterations ++ ": " ++ endpoint
                           ++ " → Error: " ++ str_exc e) ;;
           Script.ret (success_count, (error_count + 1)%Z)
         else Script.raise e) ;;
  Script.lift (time_sleep (Float64.fl (2 # 10))) ;;
  Script.ret counts'.

(** [for i in range(iterations)], [n] rounds being left. *)
Fixpoint loop (iterations : Z) (n : nat) (i : Z) (counts : Z * Z)
    : Script.Script (Z * Z) :=
  match n with
  | O => Script.ret counts
  | S n' =>
      counts' <- iteration iterations i counts ;;
      loop iterations n' (i + 1)%Z counts'
  end.

(** [run_load_test(iterations)] *)
Definition run_load_test (iterations : Z) : Script.Script unit :=
  Script.print (nl ++ "🚀 Starting load test..." ++ nl) ;;
  counts <- loop iterations (Z.to_nat iterations) 0 (0, 0)%Z ;;
  let (success_count, error_count) := counts in
  Script.print (nl ++ "📊 Load Test Results:") ;;
  Script.print ("   Total: " ++ str_int iterations ++ " requests") ;;
  Script.print ("   ✅ Successful: " ++ str_int success_count) ;;
  Script.print ("   ❌ Errors: " ++ str_int error_count) ;;
  rate <- error_rate error_count iterations ;;
  Script.print ("   📈 Error Rate: " ++ rate ++ "%") ;;
  Script.print (nl ++ "💡 Check Azure Portal in 2-5 minutes to see the telemetry!" ++ nl).

End WithEnv.

End LoadTesting.

(** The cases of [run_http_error_tests] in [tests/test_http_errors.py]: path
    under [BASE_URL], expected status, description. *)
Module HttpErrorTests.

Definition test_cases : list (string * Z * string) :=
  [("/", 200, "Root endpoint (200 OK)");
   ("/health", 200, "Health check (200 OK)");
   ("/demo/http-errors/400", 400, "Bad Request (400)");
   ("/demo/http-errors/401", 401, "Unauthorized (401)");
   ("/demo/http-errors/403", 403, "Forbidden (403)");
   ("/demo/http-errors/404", 404, "Not Found (404)");
   ("/demo/http-errors/429", 429, "Too Many Requests (429)");
   ("/demo/http-errors/500", 500, "Internal Server Error (500)");
   ("/demo/http-errors/503", 503, "Service Unavailable (503)")].

End HttpErrorTests.

(** How many of the first [n] outbound calls, counted from the [k]-th, count
    as errors for the load test: those that raise and those answered with a
    status of 400 or more. *)
Fixpoint failed_calls (env : Env) (k n : nat) : Z :=
  match n with
  | O => 0
  | S n' =>
      (match env_http env k with
       | Returned r => if (status_code r <? 400)%Z then 0 else 1
       | Failed _ => 1
       end + failed_calls env (S k) n')%Z
  end.

(* ================================================================= *)
(** ** The test suite ([tests/test_main.py]) *)




Module TestMain.

(** A test passes when each of its [assert]s holds and nothing raises; the
    result is whether it passes, and the world the request left. *)
Definition Test : Type := World -> bool * World.





Section WithEnv.

Variable env : Env.

















End WithEnv.

(** The tests run one after the other in one process. *)
Fixpoint run (ts : list Test) (w : World) : list bool * World :=
  match ts with
  | [] => ([], w)
  | t :: ts' =>
      let (passed, w') := t w in
      let (rest, w'') := run ts' w' in
      (passed :: rest, w'')
  end.

End TestMain.

(** An environment in which an outbound call fails only with an exception of
    the requests library. *)
Definition errors_only_from_requests (env : Env) : Prop :=
  forall k e, env_http env k = Failed e -> is_RequestException e = true.

(** An outbound call as the load test makes them: to a listed endpoint, with
    a timeout of 10 seconds. *)
Definition load_test_call (g : string * Z) : Prop :=
  exists endpoint,
    In endpoint LoadTesting.ENDPOINTS /\
    g = (LoadTesting.BASE_URL ++ endpoint, 10).


(* ================================================================= *)
(** * Properties *)

(** ** Rounding to binary64 is monotone *)

Module Float64Facts.
Import Float64.
Local Open Scope Q_scope.

Lemma rne_floor_or_succ (x : Q) : rne x = Qfloor x \/ rne x = (Qfloor x + 1)%Z.
Proof.
  unfold rne. destruct (Qcompare _ _); [destruct (Z.even _)|..]; auto.
Qed.

Lemma rne_Z (n : Z) : rne (inject_Z n) = n.
Proof.
  unfold rne. rewrite Qfloor_Z.
  destruct (Qcompare_spec (inject_Z n - inject_Z n) (1 # 2)) as [H|H|H];
    [exfalso; lra | reflexivity | exfalso; lra].
Qed.

Lemma rne_mono (x y : Q) : x <= y -> (rne x <= rne y)%Z.
Proof.
  intros Hxy. pose proof (Qfloor_resp_le _ _ Hxy) as Hf.
  destruct (Z.eq_dec (Qfloor x) (Qfloor y)) as [E|NE].
  - unfold rne. rewrite <- E.
    destruct (Qcompare_spec (x - inject_Z (Qfloor x)) (1 # 2)) as [Hx|Hx|Hx];
    destruct (Qcompare_spec (y - inject_Z (Qfloor x)) (1 # 2)) as [Hy|Hy|Hy];
    try destruct (Z.even (Qfloor x)); try lia; exfalso; lra.
  - destruct (rne_floor_or_succ x) as [-> | ->],
             (rne_floor_or_succ y) as [-> | ->]; lia.
Qed.

Lemma pow2_pos (e : Z) : 0 < pow2 e.
Proof. apply Qpower_0_lt. reflexivity. Qed.

Lemma pow2_le (a b : Z) : (a <= b)%Z -> pow2 a <= pow2 b.
Proof. intros H. apply Qpower_le_compat_l; [exact H | discriminate]. Qed.

Lemma pow2_lt_inv (a b : Z) : pow2 a < pow2 b -> (a < b)%Z.
Proof. intros H. apply (Qpower_lt_compat_l_inv 2); [exact H | reflexivity]. Qed.

Lemma pow2_succ (e : Z) : pow2 (e + 1) == 2 * pow2 e.
Proof.
  unfold pow2. rewrite Qpower_plus by discriminate. rewrite Qmult_comm. reflexivity.
Qed.

Lemma pow2_nonneg_Z (n : Z) : (0 <= n)%Z -> pow2 n == inject_Z (2 ^ n).
Proof. intros H. unfold pow2. now rewrite Zpower_Qpower. Qed.

Lemma pow2_sub (a b : Z) : pow2 (a - b) * pow2 b == pow2 a.
Proof.
  unfold pow2. rewrite <- Qpower_plus by discriminate.
  now replace (a - b + b)%Z with a by ring.
Qed.

Lemma ilog2_spec (x : Q) : 0 < x -> pow2 (ilog2 x) <= x < pow2 (ilog2 x + 1).
Proof.
  intros Hx. destruct x as [n d]. 
  assert (Hn : (0 < n)%Z) by (unfold Qlt in Hx; simpl in Hx; lia).
  unfold ilog2. cbn [Qnum Qden].
  set (a := Z.log2 n). set (b := Z.log2 (Z.pos d)).
  assert (Ha : (2 ^ a <= n < 2 ^ (a + 1))%Z).
  { subst a. replace (Z.log2 n + 1)%Z with (Z.succ (Z.log2 n)) by lia.
    now apply Z.log2_spec. }
  assert (Hb : (2 ^ b <= Z.pos d < 2 ^ (b + 1))%Z).
  { subst b. replace (Z.log2 (Z.pos d) + 1)%Z with (Z.succ (Z.log2 (Z.pos d))) by lia.
    apply Z.log2_spec. lia. }
  assert (Ha0 : (0 <= a)%Z) by apply Z.log2_nonneg.
  assert (Hb0 : (0 <= b)%Z) by apply Z.log2_nonneg.
  pose proof (pow2_sub a b) as Hab.
  pose proof (pow2_pos (a - b)) as Hp.
  pose proof (pow2_succ (a - b)) as Hs.
  rewrite (pow2_nonneg_Z a Ha0), (pow2_nonneg_Z b Hb0) in Hab.
  assert (HA : inject_Z (2 ^ a) <= inject_Z n) by (rewrite <- Zle_Qle; lia).
  assert (HA' : inject_Z n < 2 * inject_Z (2 ^ a)).
  { change 2 with (inject_Z 2). rewrite <- inject_Z_mult, <- Zlt_Qlt.
    rewrite Z.pow_add_r in Ha by lia. lia. }
  assert (HB : inject_Z (2 ^ b) <= inject_Z (Z.pos d)) by (rewrite <- Zle_Qle; lia).
  assert (HB' : inject_Z (Z.pos d) < 2 * inject_Z (2 ^ b)).
  { change 2 with (inject_Z 2). rewrite <- inject_Z_mult, <- Zlt_Qlt.
    rewrite Z.pow_add_r in Hb by lia. lia. }
  assert (HB0 : 0 < inject_Z (2 ^ b)).
  { change 0 with (inject_Z 0). rewrite <- Zlt_Qlt. lia. }
  assert (Hd : 0 < inject_Z (Z.pos d)) by lra.
  assert (Hx' : (n # d) * inject_Z (Z.pos d) == inject_Z n).
  { rewrite (Qmake_Qdiv n d). field. lra. }
  set (X := n # d) in *. set (D := inject_Z (Z.pos d)) in *.
  set (N := inject_Z n) in *. set (A := inject_Z (2 ^ a)) in *.
  set (B := inject_Z (2 ^ b)) in *. set (P := pow2 (a - b)) in *.
  destruct (Qle_bool P X) eqn:E.
  - apply Qle_bool_iff in E. split; [exact E|].
    rewrite Hs. nra.
  - assert (E' : X < P).
    { apply Qnot_le_lt. intros C. apply Qle_bool_iff in C. congruence. }
    replace (a - b - 1 + 1)%Z with (a - b)%Z by ring. split; [|exact E'].
    pose proof (pow2_succ (a - b - 1)) as Hs'.
    replace (a - b - 1 + 1)%Z with (a - b)%Z in Hs' by ring. fold P in Hs'.
    pose proof (pow2_pos (a - b - 1)). nra.
Qed.

Lemma ilog2_mono (x y : Q) : 0 < x -> x <= y -> (ilog2 x <= ilog2 y)%Z.
Proof.
  intros Hx Hxy.
  destruct (ilog2_spec x Hx) as [Lx _].
  destruct (ilog2_spec y) as [_ Uy]; [lra|].
  assert (H : pow2 (ilog2 x) < pow2 (ilog2 y + 1)) by lra.
  apply pow2_lt_inv in H. lia.
Qed.

Lemma ulp_pos (x : Q) : 0 < ulp x.
Proof. apply pow2_pos. Qed.

Lemma ulp_scale (x : Q) :
  inject_Z (2 ^ 53) * ulp x == pow2 (Z.max (ilog2 x) emin + 1).
Proof.
  unfold ulp, prec. rewrite <- (pow2_nonneg_Z 53) by lia.
  unfold pow2. rewrite <- Qpower_plus by discriminate.
  now replace (53 + (Z.max (ilog2 x) emin - (53 - 1)))%Z
    with (Z.max (ilog2 x) emin + 1)%Z by ring.
Qed.

Lemma ulp_scale_low (x : Q) :
  inject_Z (2 ^ 52) * ulp x == pow2 (Z.max (ilog2 x) emin).
Proof.
  unfold ulp, prec. rewrite <- (pow2_nonneg_Z 52) by lia.
  unfold pow2. rewrite <- Qpower_plus by discriminate.
  now replace (52 + (Z.max (ilog2 x) emin - (53 - 1)))%Z
    with (Z.max (ilog2 x) emin)%Z by ring.
Qed.

Lemma div_ulp_le (x : Q) (n : Z) (u : Q) :
  0 < u -> x <= inject_Z n * u -> x / u <= inject_Z n.
Proof. intros Hu H. apply Qle_shift_div_r; assumption. Qed.

Lemma le_div_ulp (x : Q) (n : Z) (u : Q) :
  0 < u -> inject_Z n * u <= x -> inject_Z n <= x / u.
Proof. intros Hu H. apply Qle_shift_div_l; assumption. Qed.

Lemma fl_abs_nonneg (x : Q) : 0 <= x -> 0 <= fl_abs x.
Proof.
  intros Hx. unfold fl_abs. pose proof (ulp_pos x) as Hu.
  assert (H : (0 <= rne (x / ulp x))%Z).
  { rewrite <- (rne_Z 0). apply rne_mono. apply (le_div_ulp x 0); [lra | change (inject_Z 0) with 0; lra]. }
  rewrite Zle_Qle in H. change (inject_Z 0) with 0 in H. nra.
Qed.

Lemma fl_abs_upper (x : Q) :
  0 < x -> fl_abs x <= pow2 (Z.max (ilog2 x) emin + 1).
Proof.
  intros Hx. unfold fl_abs. pose proof (ulp_pos x) as Hu.
  rewrite <- ulp_scale.
  assert (H : (rne (x / ulp x) <= 2 ^ 53)%Z).
  { rewrite <- (rne_Z (2 ^ 53)). apply rne_mono. apply div_ulp_le; [exact Hu|].
    rewrite ulp_scale. destruct (ilog2_spec x Hx) as [_ U].
    apply Qlt_le_weak. eapply Qlt_le_trans; [exact U|]. apply pow2_le. lia. }
  rewrite Zle_Qle in H. change (inject_Z 0) with 0 in H. nra.
Qed.

Lemma fl_abs_lower (x : Q) :
  0 < x -> (emin <= ilog2 x)%Z -> pow2 (ilog2 x) <= fl_abs x.
Proof.
  intros Hx He. unfold fl_abs. pose proof (ulp_pos x) as Hu.
  pose proof (ulp_scale_low x) as Hs. rewrite Z.max_l in Hs by exact He.
  rewrite <- Hs.
  assert (H : (2 ^ 52 <= rne (x / ulp x))%Z).
  { rewrite <- (rne_Z (2 ^ 52)) at 1. apply rne_mono. apply le_div_ulp; [exact Hu|].
    rewrite Hs. now destruct (ilog2_spec x Hx). }
  rewrite Zle_Qle in H. change (inject_Z 0) with 0 in H. nra.
Qed.

Lemma fl_abs_mono (x y : Q) : 0 < x -> x <= y -> fl_abs x <= fl_abs y.
Proof.
  intros Hx Hxy. assert (Hy : 0 < y) by lra.
  pose proof (ilog2_mono x y Hx Hxy) as He.
  destruct (Z.eq_dec (Z.max (ilog2 x) emin) (Z.max (ilog2 y) emin)) as [E|NE].
  - unfold fl_abs, ulp. rewrite <- E.
    set (u := pow2 (Z.max (ilog2 x) emin - (prec - 1))).
    assert (Hu : 0 < u) by apply pow2_pos.
    assert (H : (rne (x / u) <= rne (y / u))%Z).
    { apply rne_mono. apply Qmult_le_compat_r; [exact Hxy|].
      apply Qlt_le_weak, Qinv_lt_0_compat, Hu. }
    rewrite Zle_Qle in H. change (inject_Z 0) with 0 in H. nra.
  - assert (Hlt : (Z.max (ilog2 x) emin < ilog2 y)%Z) by lia.
    apply Qle_trans with (pow2 (Z.max (ilog2 x) emin + 1)).
    + now apply fl_abs_upper.
    + apply Qle_trans with (pow2 (ilog2 y)).
      * apply pow2_le. lia.
      * apply fl_abs_lower; [exact Hy | lia].
Qed.

Lemma fl_abs_zero (x : Q) : x == 0 -> fl_abs x == 0.
Proof.
  intros Hx. unfold fl_abs. pose proof (ulp_pos x) as Hu.
  assert (H : rne (x / ulp x) = 0%Z).
  { assert (U : x / ulp x <= inject_Z 0)
      by (apply div_ulp_le; [lra | change (inject_Z 0) with 0; lra]).
    assert (L : inject_Z 0 <= x / ulp x)
      by (apply le_div_ulp; [lra | change (inject_Z 0) with 0; lra]).
    apply rne_mono in U, L. rewrite rne_Z in U, L. lia. }
  rewrite H. change (inject_Z 0) with 0. ring.
Qed.

Lemma fl_nonneg_eq (x : Q) : 0 <= x -> fl x == fl_abs x.
Proof.
  intros Hx. unfold fl. rewrite Qred_correct.
  apply Qle_bool_iff in Hx. now rewrite Hx.
Qed.

(** Rounding is monotone on the non-negative floats. *)
Lemma fl_mono (x y : Q) : 0 <= x -> x <= y -> fl x <= fl y.
Proof.
  intros Hx Hxy. rewrite (fl_nonneg_eq x Hx), (fl_nonneg_eq y) by lra.
  destruct (Qlt_le_dec 0 x) as [Hpos|Hle].
  - now apply fl_abs_mono.
  - rewrite (fl_abs_zero x) by lra. apply fl_abs_nonneg. lra.
Qed.

(** A value between two floats rounds to a float between them. *)
Lemma fl_between (lo hi x : Q) :
  0 <= lo -> fl lo == lo -> fl hi == hi -> lo <= x <= hi -> lo <= fl x <= hi.
Proof.
  intros Hlo Flo Fhi [H1 H2]. split.
  - rewrite <- Flo. apply fl_mono; assumption.
  - rewrite <- Fhi. apply fl_mono; lra.
Qed.

(** Rounding a float to [n] decimals stays between two bounds that are
    floats and decimals of [n] digits themselves. *)
Lemma round_ndigits_between (lo hi x : Q) (zlo zhi : Z) (n : nat) :
  0 <= lo -> fl lo == lo -> fl hi == hi ->
  lo * inject_Z (10 ^ Z.of_nat n) == inject_Z zlo ->
  hi * inject_Z (10 ^ Z.of_nat n) == inject_Z zhi ->
  lo <= x <= hi ->
  lo <= round_ndigits x n <= hi.
Proof.
  intros Hlo Flo Fhi Elo Ehi [H1 H2]. unfold round_ndigits.
  set (s := inject_Z (10 ^ Z.of_nat n)) in *.
  assert (Hs : 0 < s).
  { subst s. change 0 with (inject_Z 0). rewrite <- Zlt_Qlt.
    apply Z.pow_pos_nonneg; lia. }
  apply fl_between; try assumption.
  assert (L : (zlo <= rne (x * s))%Z).
  { rewrite <- (rne_Z zlo). apply rne_mono. rewrite <- Elo.
    apply Qmult_le_compat_r; lra. }
  assert (U : (rne (x * s) <= zhi)%Z).
  { rewrite <- (rne_Z zhi). apply rne_mono. rewrite <- Ehi.
    apply Qmult_le_compat_r; lra. }
  rewrite Zle_Qle in L, U. rewrite <- Elo in L. rewrite <- Ehi in U.
  split.
  - apply Qle_shift_div_l; assumption.
  - apply Qle_shift_div_r; assumption.
Qed.

(** A draw of [random.random()] lies in [[0, 1)]. *)
Lemma unit_draw_range (k : N) :
  let r := Qred (inject_Z (Z.of_N k mod 2 ^ 53) / inject_Z (2 ^ 53)) in
  0 <= r /\ r < 1.
Proof.
  cbv zeta. rewrite Qred_correct.
  pose proof (Z.mod_pos_bound (Z.of_N k) (2 ^ 53) ltac:(lia)) as [H0 H1].
  assert (Hp : 0 < inject_Z (2 ^ 53)) by reflexivity.
  split.
  - apply Qle_shift_div_l; [exact Hp|]. rewrite Qmult_0_l.
    change 0 with (inject_Z 0). now rewrite <- Zle_Qle.
  - apply Qlt_shift_div_r; [exact Hp|]. rewrite Qmult_1_l.
    now rewrite <- Zlt_Qlt.
Qed.

(** [a + (b - a) * r] computed in floats stays in [[a, b]] when [a], [b] and
    [b - a] are floats. *)
Lemma uniform_between (a b : Z) (r : Q) :
  (0 <= a <= b)%Z ->
  fl (inject_Z a) == inject_Z a -> fl (inject_Z b) == inject_Z b ->
  fl (inject_Z (b - a)) == inject_Z (b - a) ->
  0 <= r <= 1 ->
  inject_Z a <= fadd (inject_Z a) (fmul (inject_Z (b - a)) r) <= inject_Z b.
Proof.
  intros [Ha Hab] Fa Fb Fd [Hr0 Hr1]. unfold fadd, fmul.
  assert (Ha' : 0 <= inject_Z a).
  { change 0 with (inject_Z 0). now rewrite <- Zle_Qle. }
  assert (Hd : 0 <= inject_Z (b - a)).
  { change 0 with (inject_Z 0). rewrite <- Zle_Qle. lia. }
  assert (Ed : inject_Z (b - a) == inject_Z b - inject_Z a).
  { unfold Z.sub. rewrite inject_Z_plus, inject_Z_opp. reflexivity. }
  assert (F0 : fl 0 == 0) by reflexivity.
  pose proof (fl_between 0 (inject_Z (b - a)) (inject_Z (b - a) * r)
                ltac:(lra) F0 Fd ltac:(nra)) as [Y0 Y1].
  apply fl_between; try assumption. lra.
Qed.
End Float64Facts.


(** ** Running handlers *)

(** Unfold the handlers and the monad down to the world they build.  The
    world is taken apart first, so that each step rebuilds it from its
    fields. *)
Ltac open_world w :=
  destruct w as [heap tp mp lp handlers level instr am events draws reads calls].

(** The value [/demo/dependency] answers with can be written when the
    payload can. *)
Lemma refusals_echo (k1 k2 k3 k4 a b : string) (c : Z) (data : JSON) :
  refusals (JObj [(k1, JStr a); (k2, JStr b); (k3, JInt c); (k4, data)])
    = refusals data.
Proof. change ((refusals data ++ [])%list = refusals data). apply app_nil_r. Qed.

(** Decide whether the values at hand can be rendered, where their shape
    decides it. *)
Ltac render_values :=
  rewrite ?refusals_echo;
  repeat match goal with
    | |- context [refusals ?j] =>
        let found := eval cbv [refusals app map] in (refusals j) in
        lazymatch found with [] => idtac | _ :: _ => idtac end;
        change (refusals j) with found
    end;
  cbv beta iota delta [fst snd].

Ltac run :=
  cbv [handle route get_request server_error_middleware error_type_param
       root health demo_info_log demo_warning_log demo_error_log
       demo_exception demo_metrics demo_custom_trace demo_dependency_tracking
       demo_slow_operation demo_all_telemetry global_exception_handler
       bind ret raise try_except emit with_span tracer_is_recording
       logger logger_debug logger_info logger_warning logger_error logger_exception
       Logging.log instrument_record span_set_attribute span_add_event
       span_record_exception time_sleep time_time count_clock_read count_rng_draw
       count_http_call random_random random_uniform random_choice random_randint
       requests_get response_json py_truediv Query opt_eqb is_HTTPException
       JSONResponse http_exception_handler server_error_response list_append
       render Z.eqb
       trace providers tracer_provider meter_provider logger_provider
       root_handlers root_level instrumented azure_monitor rng_draws clock_reads
       http_calls];
  render_values;
  cbn [trace providers tracer_provider meter_provider logger_provider
       root_handlers root_level instrumented azure_monitor rng_draws clock_reads
       http_calls fst snd resp_status resp_body req_query req_path req_method].

(** The cases of a call: the value of [error_type], the outcome of the
    outbound call, whether its payload decodes and can be rendered, and
    whether the tracer records. *)
Ltac call_cases env query calls :=
  try match goal with |- context [query_get "error_type" query] =>
        destruct (query_get "error_type" query) as [s|];
        repeat match goal with |- context [String.eqb ?a ?b] =>
                 destruct (String.eqb a b) end
      end;
  try match goal with |- context [env_http env calls] =>
        destruct (env_http env calls) as [response|e] end;
  try match goal with |- context [json_body ?r] =>
        destruct (json_body r) as [data|decode_error] end;
  cbv beta iota delta [fst snd]; render_values;
  try match goal with |- context [refusals ?d] =>
        destruct (refusals d) as [|why more] end;
  repeat match goal with |- context [is_registered ?p] =>
           is_var p; destruct p end;
  cbn [fst snd trace providers tracer_provider meter_provider logger_provider
       root_handlers root_level instrumented azure_monitor rng_draws clock_reads
       http_calls app resp_status resp_body is_registered].

Lemma counter_total_app (name : string) (t1 t2 : list Event) :
  counter_total name (t1 ++ t2) = counter_total name t1 + counter_total name t2.
Proof.
  induction t1 as [|e t1 IH]; [reflexivity|].
  destruct e as [r|[i [n|x] a]|c|u t|d]; cbn [counter_total app]; rewrite IH; lia.
Qed.

(** What [demo_exception] does, case by case on [error_type]. *)
Lemma demo_exception_run (error_type : option string) (w : World) :
  let counted :=
    MetricCall {| instrument := error_counter; amount := PyInt 1;
                  attributes := [("error_type", json_opt error_type);
                                 ("endpoint", JStr "/demo/exception")] |} in
  let exc :=
    if opt_eqb error_type "runtime" then
      RuntimeError "This is a simulated runtime error for testing"
    else if opt_eqb error_type "zero_division" then
      ZeroDivisionError "division by zero"
    else ValueError ("Unknown error type: " ++ str_opt error_type) in
  if opt_eqb error_type "http" then
    fst (demo_exception error_type w)
      = Raise (HTTPException 503 "Service temporarily unavailable") /\
    trace (snd (demo_exception error_type w)) = (trace w ++ [counted])%list
  else
    fst (demo_exception error_type w)
      = Raise (HTTPException 500 ("Internal error: " ++ str_exc exc)) /\
    trace (snd (demo_exception error_type w))
      = (trace w ++
           [counted;
            LogCall {| lr_name := logger; lr_level := ERROR;
                       lr_msg := "Exception occurred: " ++ type_name exc;
                       lr_extra := [("error_type", json_opt error_type);
                                    ("exception_class", JStr (type_name exc))];
                       lr_exc_info := Some exc |}])%list.
Proof.
  cbv zeta. open_world w. run.
  destruct error_type as [s|]; cbn [opt_eqb].
  - destruct (String.eqb_spec s "runtime") as [->|Hr].
    + cbn. rewrite <- app_assoc. split; reflexivity.
    + destruct (String.eqb_spec s "http") as [->|Hh].
      * cbn. split; reflexivity.
      * destruct (String.eqb_spec s "zero_division") as [->|Hz];
          cbn; rewrite <- app_assoc; split; reflexivity.
  - cbn. rewrite <- app_assoc. split; reflexivity.
Qed.

(** ** [GET /demo/exception] *)

Lemma handle_demo_exception (env : Env) (query : list (string * string)) (w : World) :
  handle env DemoException query w =
    match demo_exception (error_type_param query) w with
    | (Ok (PyResponse r), w') => (r, w')
    | (Ok (PyJson j), w') =>
        match render j with
        | Ok r => (r, w')
        | Raise exc =>
            server_error_middleware (get_request DemoException query) exc w'
        end
    | (Raise (HTTPException status detail), w') =>
        (http_exception_handler status detail, w')
    | (Raise exc, w') =>
        server_error_middleware (get_request DemoException query) exc w'
    end.
Proof. reflexivity. Qed.

Lemma error_type_param_some (query : list (string * string)) :
  exists s, error_type_param query = Some s.
Proof.
  unfold error_type_param, Query. cbn [req_query get_request].
  destruct (query_get "error_type" query) as [v|]; eauto.
Qed.

(** C1: [GET /demo/exception] answers 503 when [error_type] is "http" and
    500 for every other value, "runtime", "zero_division" or unrecognized;
    on the 500 paths the exception is logged, with level ERROR and the
    exception attached, before the response is produced. *)
Theorem demo_exception_status_codes
    (env : Env) (query : list (string * string)) (w : World) :
  exists error_type,
    error_type_param query = Some error_type /\
    let r := handle env DemoException query w in
    if String.eqb error_type "http" then
      resp_status (fst r) = 503 /\
      response_field "detail" (fst r) = Some (JStr "Service temporarily unavailable")
    else
      resp_status (fst r) = 500 /\
      exists m lr exc,
        trace (snd r) = (trace w ++ [MetricCall m; LogCall lr])%list /\
        lr_level lr = ERROR /\
        lr_exc_info lr = Some exc /\
        exc = (if String.eqb error_type "runtime" then
                 RuntimeError "This is a simulated runtime error for testing"
               else if String.eqb error_type "zero_division" then
                 ZeroDivisionError "division by zero"
               else ValueError ("Unknown error type: " ++ error_type)) /\
        response_field "detail" (fst r)
          = Some (JStr ("Internal error: " ++ str_exc exc)).
Proof.
  destruct (error_type_param_some query) as [s Hs].
  exists s. split; [exact Hs|]. cbv zeta.
  rewrite handle_demo_exception, Hs.
  pose proof (demo_exception_run (Some s) w) as H. cbv zeta in H.
  cbn [opt_eqb str_opt] in H.
  destruct (demo_exception (Some s) w) as [o w'].
  cbn [fst snd] in H.
  destruct (String.eqb s "http"); destruct H as [-> Ht].
  - split; reflexivity.
  - split; [reflexivity|]. cbn [fst snd].
    eexists _, _, _. split; [exact Ht|].
    repeat split; reflexivity.
Qed.

(** C9: every call of [GET /demo/exception] adds exactly one to the error
    counter, tagged with the [error_type] of the call, as its first effect;
    the call then ends in the 503 or the 500 response, the counter updated. *)
Theorem demo_exception_counts_every_call
    (env : Env) (query : list (string * string)) (w : World) :
  let r := handle env DemoException query w in
  exists rest,
    trace (snd r)
      = (trace w ++
           MetricCall {| instrument := error_counter; amount := PyInt 1;
                         attributes :=
                           [("error_type", json_opt (error_type_param query));
                            ("endpoint", JStr "/demo/exception")] |} :: rest)%list /\
    counter_total error_counter rest = 0 /\
    counter_total error_counter (trace (snd r))
      = counter_total error_counter (trace w) + 1 /\
    (resp_status (fst r) = 503 \/ resp_status (fst r) = 500).
Proof.
  cbv zeta. rewrite handle_demo_exception.
  pose proof (demo_exception_run (error_type_param query) w) as H. cbv zeta in H.
  destruct (demo_exception (error_type_param query) w) as [o w'].
  cbn [fst snd] in H.
  destruct (opt_eqb (error_type_param query) "http"); destruct H as [-> Ht];
    cbn [fst snd]; rewrite Ht; eexists; (split; [reflexivity|]);
    rewrite counter_total_app; cbn; repeat split; try lia; auto.
Qed.

(** C10: a call of [GET /demo/exception] that leaves [error_type] out is the
    call with [error_type=runtime]: same response, same effects, a logged
    [RuntimeError] and status 500. *)
Theorem demo_exception_default_is_runtime
    (env : Env) (query : list (string * string)) (w : World) :
  query_get "error_type" query = None ->
  handle env DemoException query w
    = handle env DemoException [("error_type", "runtime")] w /\
  resp_status (fst (handle env DemoException query w)) = 500 /\
  exists m lr,
    trace (snd (handle env DemoException query w))
      = (trace w ++ [MetricCall m; LogCall lr])%list /\
    lr_exc_info lr
      = Some (RuntimeError "This is a simulated runtime error for testing").
Proof.
  intros Hq.
  assert (E : error_type_param query = Some "runtime").
  { unfold error_type_param, Query. cbn [req_query get_request]. now rewrite Hq. }
  rewrite !handle_demo_exception, E.
  change (error_type_param [("error_type", "runtime")]) with (Some "runtime").
  pose proof (demo_exception_run (Some "runtime") w) as H. cbv zeta in H.
  cbn [opt_eqb String.eqb Ascii.eqb Bool.eqb] in H.
  destruct (demo_exception (Some "runtime") w) as [o w'].
  cbn [fst snd] in H. destruct H as [-> Ht]. cbn [fst snd].
  repeat split. eexists _, _. split; [exact Ht|reflexivity].
Qed.

Lemma demo_exception_default_is_runtime_witness :
  query_get "error_type" [("verbose", "1")] = None /\
  resp_status (fst (handle Samples.quiet_env DemoException [("verbose", "1")]
                      initial_world)) = 500.
Proof.
  split; [reflexivity|].
  apply (demo_exception_default_is_runtime Samples.quiet_env [("verbose", "1")]
           initial_world). reflexivity.
Defined.

(** ** [GET /demo/all] *)

(** C3: [GET /demo/all] answers 200 with a non-empty [telemetry_generated]
    list whether the outbound call returns or raises; when it raises, the
    failure is logged and recorded as an entry of the list. *)
Theorem demo_all_always_succeeds
    (env : Env) (query : list (string * string)) (w : World) :
  let r := handle env DemoAll query w in
  resp_status (fst r) = 200 /\
  exists results,
    response_field "telemetry_generated" (fst r) = Some (JList (map JStr results)) /\
    results <> [] /\
    response_field "total_types" (fst r) = Some (JInt 7) /\
    List.length results = 7%nat /\
    match env_http env (http_calls w) with
    | Returned response =>
        In ("✓ Dependency tracking (status: "
              ++ str_int (status_code response) ++ ")") results
    | Failed e =>
        In "✗ Dependency tracking (failed)" results /\
        In (LogCall {| lr_name := logger; lr_level := ERROR;
                       lr_msg := "Dependency call failed: " ++ str_exc e;
                       lr_extra := []; lr_exc_info := None |})
           (trace (snd r))
    end.
Proof.
  cbv zeta. open_world w. run.
  call_cases env query calls; split; try reflexivity;
    eexists; (split; [reflexivity|]);
    (split; [discriminate|]); (split; [reflexivity|]); (split; [reflexivity|]).
  - cbn. tauto.
  - split; [cbn; tauto|].
    repeat (rewrite in_app_iff; cbn [In]). tauto.
Qed.

(** ** [GET /demo/metrics] and [GET /demo/slow] *)

Import Float64 Float64Facts.

(** The value [random.uniform(10, 500)] takes for any draw. *)
Lemma uniform_10_500 (k : N) :
  let r := Qred (inject_Z (Z.of_N k mod 2 ^ 53) / inject_Z (2 ^ 53)) in
  (10 <= fadd (inject_Z 10) (fmul (inject_Z (500 - 10)) r) <= 500)%Q.
Proof.
  cbv zeta. destruct (unit_draw_range k) as [H0 H1]. cbv zeta in H0, H1.
  change 10%Q with (inject_Z 10) at 1. change 500%Q with (inject_Z 500).
  apply uniform_between; try lia; try reflexivity.
  split; [exact H0 | apply Qlt_le_weak, H1].
Qed.

(** The value [random.uniform(1, 3)] takes for any draw. *)
Lemma uniform_1_3 (k : N) :
  let r := Qred (inject_Z (Z.of_N k mod 2 ^ 53) / inject_Z (2 ^ 53)) in
  (1 <= fadd (inject_Z 1) (fmul (inject_Z (3 - 1)) r) <= 3)%Q.
Proof.
  cbv zeta. destruct (unit_draw_range k) as [H0 H1]. cbv zeta in H0, H1.
  change 1%Q with (inject_Z 1) at 1. change 3%Q with (inject_Z 3).
  apply uniform_between; try lia; try reflexivity.
  split; [exact H0 | apply Qlt_le_weak, H1].
Qed.

Lemma choice_of_three (i : nat) :
  In (nth (i mod 3) [-1; 1; 2] 0) [-1; 1; 2].
Proof.
  pose proof (Nat.mod_upper_bound i 3 ltac:(lia)) as H.
  destruct (i mod 3)%nat as [|[|[|n]]]; cbn; try tauto. lia.
Qed.

(** C4: [GET /demo/metrics] answers with a [processing_time_ms] in
    [[10, 500]] and an [active_users_change] among -1, 1 and 2. *)
Theorem demo_metrics_ranges
    (env : Env) (query : list (string * string)) (w : World) :
  let r := handle env DemoMetrics query w in
  resp_status (fst r) = 200 /\
  exists metrics processing_time_ms active_users_change,
    response_field "metrics" (fst r) = Some metrics /\
    json_field "processing_time_ms" metrics = Some (JFloat processing_time_ms) /\
    (10 <= processing_time_ms <= 500)%Q /\
    json_field "active_users_change" metrics = Some (JInt active_users_change) /\
    In active_users_change [-1; 1; 2].
Proof.
  cbv zeta. open_world w. run. split; [reflexivity|].
  eexists _, _, _. split; [reflexivity|]. split; [reflexivity|].
  split; [|split; [reflexivity|]].
  - apply (round_ndigits_between 10 500 _ 1000 50000 2);
      try reflexivity; try discriminate.
    apply uniform_10_500.
  - apply choice_of_three.
Qed.

Module RoundingError.
Import Float64 Float64Facts.
Local Open Scope Q_scope.

Lemma rne_error (x : Q) : - (1 # 2) <= inject_Z (rne x) - x <= 1 # 2.
Proof.
  pose proof (Qfloor_le x) as L. pose proof (Qlt_floor x) as U.
  rewrite inject_Z_plus in U. change (inject_Z 1) with 1 in U.
  unfold rne.
  destruct (Qcompare_spec (x - inject_Z (Qfloor x)) (1 # 2)) as [H|H|H];
    try destruct (Z.even (Qfloor x));
    try (rewrite inject_Z_plus; change (inject_Z 1) with 1); lra.
Qed.

Lemma fl_abs_error (x : Q) :
  - ((1 # 2) * ulp x) <= fl_abs x - x <= (1 # 2) * ulp x.
Proof.
  pose proof (ulp_pos x) as Hu. pose proof (rne_error (x / ulp x)) as [L U].
  assert (E : x == x / ulp x * ulp x) by (field; lra).
  unfold fl_abs.
  set (y := x / ulp x) in *. clearbody y.
  set (m := inject_Z (rne y)) in *. clearbody m.
  set (u := ulp x) in *. clearbody u.
  rewrite E.
  assert (Hl : - (1 # 2) * u <= (m - y) * u) by (apply Qmult_le_compat_r; lra).
  assert (Hr : (m - y) * u <= (1 # 2) * u) by (apply Qmult_le_compat_r; lra).
  split; lra.
Qed.

Lemma ulp_below_4 (x : Q) : 0 < x -> x < 4 -> ulp x <= pow2 (-51).
Proof.
  intros H0 H4. destruct (ilog2_spec x H0) as [L _].
  assert (H : pow2 (ilog2 x) < pow2 2) by (change (pow2 2) with 4; lra).
  apply pow2_lt_inv in H. apply pow2_le. unfold prec, emin. lia.
Qed.

(** [round(x, 2)] of a float in [[1, 3]] is within half a hundredth of [x],
    up to the rounding of the result to binary64. *)
Lemma round_2_error (x : Q) :
  1 <= x <= 3 ->
  - ((1 # 200) + pow2 (-52)) <= round_ndigits x 2 - x <= (1 # 200) + pow2 (-52).
Proof.
  intros [H1 H3]. unfold round_ndigits.
  change (inject_Z (10 ^ Z.of_nat 2)) with 100.
  pose proof (rne_error (x * 100)) as [L U].
  set (m := inject_Z (rne (x * 100))) in *. clearbody m.
  assert (Ey : m / 100 * 100 == m) by (field; lra).
  set (y := m / 100) in *. clearbody y.
  assert (Hy0 : 0 < y) by lra. assert (Hy4 : y < 4) by lra.
  rewrite (fl_nonneg_eq y) by lra.
  pose proof (fl_abs_error y) as [L' U'].
  pose proof (ulp_below_4 y Hy0 Hy4) as Hu.
  assert (Ep : pow2 (-51) == 2 * pow2 (-52)) by reflexivity.
  set (u := ulp y) in *. clearbody u.
  set (p := pow2 (-52)) in *. clearbody p.
  set (f := fl_abs y) in *. clearbody f.
  split; lra.
Qed.

End RoundingError.

Lemma skipn_past_prefix {A} (l new : list A) :
  skipn (List.length l) (l ++ new) = new.
Proof.
  rewrite skipn_app, skipn_all, Nat.sub_diag. reflexivity.
Qed.

(** C5, as amended: [GET /demo/slow] answers with a [duration_seconds] in
    [[1, 3]], which is the chosen duration rounded to two decimals; the handler
    sleeps for the chosen duration, so the call takes at least the chosen
    duration, and the value returned exceeds neither 3 nor the time slept by
    more than half a hundredth of a second (and the rounding of a float). *)
Theorem demo_slow_duration
    (env : Env) (query : list (string * string)) (w : World) (overhead : Q) :
  (0 <= overhead)%Q ->
  let r := handle env DemoSlow query w in
  resp_status (fst r) = 200 /\
  exists duration duration_seconds,
    (1 <= duration <= 3)%Q /\
    response_field "duration_seconds" (fst r) = Some (JFloat duration_seconds) /\
    duration_seconds = Float64.round_ndigits duration 2 /\
    (1 <= duration_seconds <= 3)%Q /\
    In (Sleep duration) (skipn (List.length (trace w)) (trace (snd r))) /\
    (duration <= wall_clock overhead w (snd r))%Q /\
    (duration_seconds - ((1 # 200) + Float64.pow2 (-52))
       <= wall_clock overhead w (snd r))%Q.
Proof.
  intros Hov. cbv zeta. open_world w. run. split; [reflexivity|].
  set (duration := Float64.fadd _ _).
  assert (Hd : (1 <= duration <= 3)%Q) by apply uniform_1_3.
  exists duration, (Float64.round_ndigits duration 2).
  split; [exact Hd|]. split; [reflexivity|]. split; [reflexivity|].
  assert (Hr : (1 <= Float64.round_ndigits duration 2 <= 3)%Q).
  { apply (Float64Facts.round_ndigits_between 1 3 _ 100 300 2);
      try reflexivity; try discriminate. exact Hd. }
  split; [exact Hr|].
  unfold wall_clock. cbn [trace].
  repeat rewrite <- app_assoc. rewrite skipn_past_prefix.
  cbn [app In time_slept].
  split; [tauto|].
  pose proof (RoundingError.round_2_error duration Hd) as [_ E].
  split; lra.
Qed.

Lemma demo_slow_duration_witness :
  (0 <= 1 # 1000)%Q /\
  resp_status (fst (handle Samples.slow_env DemoSlow [] initial_world)) = 200.
Proof.
  split; [discriminate|].
  apply (demo_slow_duration Samples.slow_env [] initial_world (1 # 1000)).
  discriminate.
Defined.

(** C5, as stated, fails: with a draw that makes the chosen duration about
    1.996 s the handler sleeps 1.996 s and returns 2.0; a call that spends one
    millisecond outside the sleep takes less than the duration it returns. *)
Lemma demo_slow_returns_more_than_elapsed :
  let r := handle Samples.slow_env DemoSlow [] initial_world in
  response_field "duration_seconds" (fst r) = Some (JFloat 2) /\
  (wall_clock (1 # 1000) initial_world (snd r) < 2)%Q.
Proof.
  vm_compute. split; reflexivity.
Qed.

(** ** [GET /demo/dependency] *)




(** A payload that decodes and cannot be sent, that of the JSON text
    [{"x": 1e400}]: the handler logs its success and returns, the framework
    fails to render the value, the handler registered for [Exception] logs
    the failure, and the client is answered by the server. *)
Example demo_dependency_payload_not_sent :
  let r := handle Samples.overflow_env DemoDependency [] initial_world in
  echo_renderable Samples.overflow_env (http_calls initial_world) = false /\
  fst r = server_error_response /\
  map lr_level (log_calls (trace (snd r))) = [INFO; ERROR].
Proof. vm_compute. repeat split. Qed.

(** A payload that decodes and can be sent is echoed. *)
Example demo_dependency_payload_echoed :
  let r := handle Samples.json_env DemoDependency [] initial_world in
  resp_status (fst r) = 200 /\
  response_field "data" (fst r) = Some (JObj [("id", JInt 1); ("title", JStr "t")]).
Proof. vm_compute. split; reflexivity. Qed.

(** ** The handler of unhandled exceptions *)

(** C7: when an exception other than [HTTPException] leaves a route, the
    registered handler logs it and returns a dictionary with the fields
    [error], [detail] and [path]; the dictionary is not a response object, so
    it is not sent: the client receives the server's plain-text 500. *)
Theorem global_exception_handler_body_not_sent
    (request : Request) (exc : PyExc) (w : World) :
  let h := global_exception_handler request exc w in
  let r := server_error_middleware request exc w in
  fst h = Ok (PyJson (JObj [("error", JStr "Internal server error");
                            ("detail", JStr (str_exc exc));
                            ("path", JStr (req_path request))])) /\
  trace (snd h)
    = (trace w ++
         [LogCall {| lr_name := logger; lr_level := ERROR;
                     lr_msg := "Unhandled exception on " ++ req_path request;
                     lr_extra := [("path", JStr (req_path request));
                                  ("method", JStr (req_method request))];
                     lr_exc_info := Some exc |}])%list /\
  fst r = server_error_response /\
  resp_body (fst r) = TextBody "Internal Server Error" /\
  response_field "error" (fst r) = None /\
  response_field "detail" (fst r) = None /\
  response_field "path" (fst r) = None.
Proof.
  cbv zeta. open_world w. run. repeat split.
Qed.

(** ** [GET /health] *)

(** C8, as amended: [GET /health] answers 200 with [status] "healthy" and a
    float [timestamp], the reading of the system clock at the call; of two
    successive calls, the second returns the next reading of the clock. *)
Theorem health_reports_clock
    (env : Env) (query1 query2 : list (string * string)) (w : World) :
  let r1 := handle env Health query1 w in
  let r2 := handle env Health query2 (snd r1) in
  resp_status (fst r1) = 200 /\ resp_status (fst r2) = 200 /\
  response_field "status" (fst r1) = Some (JStr "healthy") /\
  response_field "status" (fst r2) = Some (JStr "healthy") /\
  response_field "timestamp" (fst r1)
    = Some (JFloat (Float64.fl (env_clock env (clock_reads w)))) /\
  response_field "timestamp" (fst r2)
    = Some (JFloat (Float64.fl (env_clock env (S (clock_reads w))))).
Proof.
  cbv zeta. open_world w. run. repeat split.
Qed.

(** C8, as stated, fails: when the system clock gives the same reading to
    two successive calls, they return the same timestamp. *)
Lemma health_timestamps_can_repeat :
  let r1 := handle Samples.quiet_env Health [] initial_world in
  let r2 := handle Samples.quiet_env Health [] (snd r1) in
  exists t1 t2,
    response_field "timestamp" (fst r1) = Some (JFloat t1) /\
    response_field "timestamp" (fst r2) = Some (JFloat t2) /\
    ~ (t1 < t2)%Q.
Proof.
  vm_compute. eexists _, _. split; [reflexivity|]. split; [reflexivity|].
  discriminate.
Qed.

(** ** Telemetry bootstrap *)

Ltac run_setup :=
  cbv [setup_telemetry RootLogger.warning RootLogger.basicConfig
       RootLogger.set_handlers RootLogger.addHandler RootLogger.setLevel
       Registry.update Registry.new_provider Registry.add_processor
       Registry.set_tracer_provider Registry.set_meter_provider
       Registry.set_logger_provider Registry.from_connection_string
       Logging.log bind ret raise emit registry root_logger
       trace providers tracer_provider meter_provider logger_provider
       root_handlers root_level instrumented azure_monitor rng_draws clock_reads
       http_calls];
  cbn [trace providers tracer_provider meter_provider logger_provider
       root_handlers root_level instrumented azure_monitor rng_draws clock_reads
       http_calls fst snd].

(** The status of every answer is one the interface documents, but for
    [/demo/dependency] when the payload it would echo cannot be sent. *)
Lemma handle_status_documented
    (env : Env) (ep : Endpoint) (query : list (string * string)) (w : World) :
  match ep with
  | DemoDependency =>
      if echo_renderable env (http_calls w) then
        In (resp_status (fst (handle env ep query w))) (documented_statuses ep)
      else resp_status (fst (handle env ep query w)) = 500
  | _ => In (resp_status (fst (handle env ep query w))) (documented_statuses ep)
  end.
Proof.
  destruct ep; try (open_world w; run; cbn; tauto).
  - rewrite handle_demo_exception.
    pose proof (demo_exception_run (error_type_param query) w) as H.
    cbv zeta in H.
    destruct (demo_exception (error_type_param query) w) as [o w'].
    cbn [fst snd] in H.
    destruct (opt_eqb (error_type_param query) "http"); destruct H as [-> _];
      cbn; tauto.
  - unfold echo_renderable, renderable. open_world w. run.
    call_cases env query calls; cbn; tauto.
  - open_world w. run. call_cases env query calls; cbn; tauto.
Qed.

(** The answers of the service do not read the telemetry registry or the
    root logger: two worlds that agree on what the environment has been asked
    so far give the same answer. *)
Lemma handle_ignores_registry
    (env : Env) (ep : Endpoint) (query : list (string * string)) (w1 w2 : World) :
  rng_draws w1 = rng_draws w2 -> clock_reads w1 = clock_reads w2 ->
  http_calls w1 = http_calls w2 ->
  fst (handle env ep query w1) = fst (handle env ep query w2).
Proof.
  intros Hr Hc Hh.
  destruct w1 as [heap1 tp1 mp1 lp1 handlers1 level1 instr1 am1 events1 d1 r1 c1].
  destruct w2 as [heap2 tp2 mp2 lp2 handlers2 level2 instr2 am2 events2 d2 r2 c2].
  cbn [rng_draws clock_reads http_calls] in Hr, Hc, Hh. subst d1 r1 c1.
  destruct ep; run; call_cases env query c2; reflexivity.
Qed.

(** C2, as amended: with the connection string absent, [setup_telemetry]
    returns after one warning on the root logger, whatever the third-party
    code would do if called.  It registers no provider, exporter or
    instrumentation and leaves the level of the root logger as it was; the
    handlers of the root logger are unchanged when there is one already, and
    otherwise the logging module installs its default stream handler to show
    the warning.  Every endpoint then answers as before the call, with a
    documented status code; the one answer outside the documented codes is
    the 500 of [/demo/dependency] for a payload that cannot be sent as JSON,
    which it gives with telemetry configured or not. *)
Theorem setup_telemetry_without_connection_string
    (sdk : Sdk) (settings : Settings) (app : FastAPI) (w : World) :
  is_absent (applicationinsights_connection_string settings) = true ->
  let r := setup_telemetry sdk settings app w in
  fst r = Ok tt /\
  registry (snd r) = registry w /\
  root_level (snd r) = root_level w /\
  root_handlers (snd r)
    = match root_handlers w with [] => [StreamHandler] | hs => hs end /\
  (exists msg,
     trace (snd r)
       = (trace w ++ [LogCall {| lr_name := "root"; lr_level := WARNING;
                                 lr_msg := msg; lr_extra := [];
                                 lr_exc_info := None |}])%list) /\
  forall env ep query,
    fst (handle env ep query (snd r)) = fst (handle env ep query w) /\
    match ep with
    | DemoDependency =>
        if echo_renderable env (http_calls w) then
          In (resp_status (fst (handle env ep query (snd r))))
             (documented_statuses ep)
        else resp_status (fst (handle env ep query (snd r))) = 500
    | _ =>
        In (resp_status (fst (handle env ep query (snd r))))
           (documented_statuses ep)
    end.
Proof.
  intros Habs. cbv zeta.
  assert (E : setup_telemetry sdk settings app w
              = RootLogger.warning
                  ("APPLICATIONINSIGHTS_CONNECTION_STRING is not set. "
                     ++ "Telemetry will not be sent to Azure Monitor.") w).
  { unfold setup_telemetry.
    destruct (applicationinsights_connection_string settings) as [[|c s]|];
      [reflexivity | discriminate | reflexivity]. }
  rewrite E. clear E.
  set (r := RootLogger.warning _ w).
  assert (Hcalls : http_calls (snd r) = http_calls w).
  { subst r. open_world w. run_setup. destruct handlers; reflexivity. }
  assert (Hsame : forall env ep query,
             fst (handle env ep query (snd r)) = fst (handle env ep query w)).
  { intros env ep query. subst r. open_world w.
    apply handle_ignores_registry; run_setup; destruct handlers; reflexivity. }
  split; [subst r; open_world w; reflexivity|]. split.
  { subst r. open_world w. run_setup. destruct handlers; reflexivity. }
  split.
  { subst r. open_world w. run_setup. destruct handlers; reflexivity. }
  split.
  { subst r. open_world w. run_setup. destruct handlers; reflexivity. }
  split.
  { subst r. open_world w. eexists. run_setup. destruct handlers; reflexivity. }
  intros env ep query. split; [apply Hsame|].
  rewrite Hsame. apply handle_status_documented.
Qed.

Lemma setup_telemetry_without_connection_string_witness :
  is_absent (applicationinsights_connection_string default_settings) = true /\
  fst (setup_telemetry Samples.sdk default_settings Main.app initial_world) = Ok tt.
Proof.
  split; [reflexivity|].
  apply (setup_telemetry_without_connection_string Samples.sdk default_settings
           Main.app initial_world). reflexivity.
Defined.

(** C2, as stated, fails: on a root logger without handlers, as the logging
    module creates it, the warning itself configures the root logger. *)
Lemma setup_telemetry_configures_root_logger :
  is_absent (applicationinsights_connection_string default_settings) = true /\
  root_logger (snd (setup_telemetry Samples.sdk default_settings Main.app
                      initial_world))
    <> root_logger initial_world.
Proof.
  split; [reflexivity | vm_compute; discriminate].
Qed.

(* ================================================================= *)
(** * Further properties of the endpoints *)

(** ** A call only appends to the trace *)

Lemma new_events_app (w w' : World) (evs : list Event) :
  trace w' = (trace w ++ evs)%list -> new_events w w' = evs.
Proof. intros E. unfold new_events. rewrite E. apply skipn_past_prefix. Qed.

(** A call does the same from any trace: it answers the same, appends the
    events it would append to the empty trace, and leaves the same world
    otherwise. *)
Lemma handle_from_empty_trace
    (env : Env) (ep : Endpoint) (query : list (string * string)) (w : World) :
  let r := handle env ep query w in
  let r0 := handle env ep query (with_trace [] w) in
  fst r = fst r0 /\
  snd r = with_trace (trace w ++ trace (snd r0)) (snd r0).
Proof.
  cbv zeta. open_world w. unfold with_trace.
  cbn [trace providers tracer_provider meter_provider logger_provider
       root_handlers root_level instrumented azure_monitor rng_draws clock_reads
       http_calls].
  destruct ep; run; call_cases env query calls;
    (split; [reflexivity|]); rewrite <- ?app_assoc; reflexivity.
Qed.

Lemma new_events_handle
    (env : Env) (ep : Endpoint) (query : list (string * string)) (w : World) :
  new_events w (snd (handle env ep query w))
    = trace (snd (handle env ep query (with_trace [] w))).
Proof.
  destruct (handle_from_empty_trace env ep query w) as [_ E]. cbv zeta in E.
  apply new_events_app. rewrite E. reflexivity.
Qed.

(** Take a call from the empty trace apart, case by case on what the
    environment and the query string decide. *)
Ltac from_empty_trace w :=
  rewrite ?new_events_handle; open_world w; unfold with_trace;
  cbn [trace providers tracer_provider meter_provider logger_provider
       root_handlers root_level instrumented azure_monitor rng_draws clock_reads
       http_calls].

(** X1: no call touches the telemetry registry or the root logger, whatever
    the endpoint and the outcome: a call only appends to the trace and asks the
    environment for draws, clock readings and outbound calls. *)
Theorem handle_keeps_registry
    (env : Env) (ep : Endpoint) (query : list (string * string)) (w : World) :
  let r := handle env ep query w in
  registry (snd r) = registry w /\
  root_logger (snd r) = root_logger w /\
  (exists evs, trace (snd r) = (trace w ++ evs)%list) /\
  (rng_draws w <= rng_draws (snd r))%nat /\
  (clock_reads w <= clock_reads (snd r))%nat /\
  (http_calls w <= http_calls (snd r))%nat.
Proof.
  cbv zeta.
  destruct (handle_from_empty_trace env ep query w) as [_ E]. cbv zeta in E.
  split; [|split; [|split; [rewrite E; eexists; reflexivity|]]].
  1,2: open_world w; unfold registry, root_logger; destruct ep; run;
       call_cases env query calls; reflexivity.
  open_world w; destruct ep; run; call_cases env query calls; repeat split; lia.
Qed.

(** X2: the spans of every call are well nested and all ended when the call
    returns, on the paths that raise as well: no endpoint leaves a span
    open, and every attribute, event and exception goes to an open span. *)
Theorem handle_spans_balanced
    (env : Env) (ep : Endpoint) (query : list (string * string)) (w : World) :
  spans_balanced [] (new_events w (snd (handle env ep query w))) = true.
Proof.
  from_empty_trace w. destruct ep; run; call_cases env query calls; reflexivity.
Qed.

(** X3: only [/demo/dependency] and [/demo/all] call out, each exactly once
    per request, to its fixed URL with a timeout of 5 seconds; no other
    endpoint makes an outbound call. *)
Theorem handle_outbound_calls
    (env : Env) (ep : Endpoint) (query : list (string * string)) (w : World) :
  let r := handle env ep query w in
  http_gets (new_events w (snd r))
    = match ep with
      | DemoDependency => [("https://jsonplaceholder.typicode.com/posts/1", 5)]
      | DemoAll => [("https://jsonplaceholder.typicode.com/users/1", 5)]
      | _ => []
      end /\
  http_calls (snd r)
    = (http_calls w + List.length (http_gets (new_events w (snd r))))%nat.
Proof.
  cbv zeta. from_empty_trace w.
  destruct ep; run; call_cases env query calls; cbn [http_gets List.length];
    split; try reflexivity; lia.
Qed.


(** X5: the time a call spends sleeping.  [/demo/trace] sleeps 0.1 s and then
    0.05 s, [/demo/all] 0.1 s, [/demo/slow] between 1 and 3 s; the other
    endpoints never sleep, and no call sleeps more than 3 seconds. *)
Theorem handle_time_slept
    (env : Env) (ep : Endpoint) (query : list (string * string)) (w : World) :
  let slept := time_slept (new_events w (snd (handle env ep query w))) in
  (slept <= 3)%Q /\
  match ep with
  | DemoTrace => (slept == Float64.fl (1 # 10) + Float64.fl (5 # 100))%Q
  | DemoAll => (slept == Float64.fl (1 # 10))%Q
  | DemoSlow => (1 <= slept <= 3)%Q
  | _ => (slept == 0)%Q
  end.
Proof.
  cbv zeta. from_empty_trace w.
  destruct ep; run; call_cases env query calls; cbn [time_slept].
  all: lazymatch goal with
       | |- (0 <= 3)%Q /\ _ => split; [discriminate | reflexivity]
       | |- context [Float64.fadd] =>
           set (duration := Float64.fadd _ _);
           assert (Hd : (1 <= duration <= 3)%Q) by apply uniform_1_3;
           split; lra
       | _ => vm_compute; split; [discriminate | reflexivity]
       end.
Qed.

(** ** [GET /] *)

(** X6: the index [GET /] returns lists every other route of the
    application, once and in the order of their declaration, under ten names;
    every path it gives resolves to a route. *)
Theorem root_index_lists_routes
    (env : Env) (query : list (string * string)) (w : World) :
  let r := handle env Root query w in
  resp_status (fst r) = 200 /\
  has_key "message" match resp_body (fst r) with
                    | JsonBody (JObj kv) => kv
                    | _ => []
                    end = true /\
  exists index,
    response_field "endpoints" (fst r) = Some (JObj index) /\
    List.length index = 10%nat /\
    map snd index = map (fun ep => JStr (path_of ep)) (tl all_endpoints) /\
    forallb (fun entry =>
               match snd entry with
               | JStr path =>
                   match resolve path with Some _ => true | None => false end
               | _ => false
               end) index = true.
Proof.
  cbv zeta. open_world w. run. split; [reflexivity|]. split; [reflexivity|].
  eexists. split; [reflexivity|]. repeat split.
Qed.

(** ** The log endpoints *)

(** X7: [/demo/info], [/demo/warning] and [/demo/error] answer 200 after one
    log call each on the module logger, at level INFO, WARNING and ERROR, with
    no exception attached; of the three only [/demo/error] touches a metric, and
    it answers 200 with [error_logged] true although it logs an error. *)
Theorem log_endpoints_log_once
    (env : Env) (query : list (string * string)) (w : World) :
  let info := handle env DemoInfo query w in
  let warning := handle env DemoWarning query w in
  let error := handle env DemoError query w in
  resp_status (fst info) = 200 /\ resp_status (fst warning) = 200 /\
  resp_status (fst error) = 200 /\
  response_field "error_logged" (fst error) = Some (JBool true) /\
  map (fun r => (lr_name r, lr_level r, lr_exc_info r))
      (log_calls (new_events w (snd info))) = [(logger, INFO, None)] /\
  map (fun r => (lr_name r, lr_level r, lr_exc_info r))
      (log_calls (new_events w (snd warning))) = [(logger, WARNING, None)] /\
  map (fun r => (lr_name r, lr_level r, lr_exc_info r))
      (log_calls (new_events w (snd error))) = [(logger, ERROR, None)] /\
  metric_calls (new_events w (snd info)) = [] /\
  metric_calls (new_events w (snd warning)) = [] /\
  metric_calls (new_events w (snd error))
    = [{| instrument := error_counter; amount := PyInt 1;
          attributes := [("error_type", JStr "logged_error");
                         ("endpoint", JStr "/demo/error")] |}].
Proof.
  cbv zeta. from_empty_trace w. run. repeat split.
Qed.

(** ** Counters over a run of requests *)

Lemma handle_counts
    (env : Env) (ep : Endpoint) (query : list (string * string)) (w : World) :
  counter_total error_counter (trace (snd (handle env ep query w)))
    = counter_total error_counter (trace w) + (if counts_error ep then 1 else 0) /\
  counter_total request_counter (trace (snd (handle env ep query w)))
    = counter_total request_counter (trace w) + (if counts_request ep then 1 else 0).
Proof.
  assert (H : counter_total error_counter
                (trace (snd (handle env ep query (with_trace [] w))))
              = (if counts_error ep then 1 else 0) /\
              counter_total request_counter
                (trace (snd (handle env ep query (with_trace [] w))))
              = (if counts_request ep then 1 else 0)).
  { from_empty_trace w.
    destruct ep; run; call_cases env query calls; split; reflexivity. }
  destruct (handle_from_empty_trace env ep query w) as [_ E]. cbv zeta in E.
  set (r0 := handle env ep query (with_trace [] w)) in *.
  rewrite E.
  change (trace (with_trace (trace w ++ trace (snd r0)) (snd r0)))
    with (trace w ++ trace (snd r0))%list.
  rewrite !counter_total_app. destruct H as [-> ->]. split; reflexivity.
Qed.

(** X8: over any run of requests served by one process, the error counter
    grows by the number of requests to [/demo/error], [/demo/exception] and
    [/demo/all], and the request counter by the number of requests to
    [/demo/metrics] and [/demo/all], whatever the answers were; every request
    gets one answer. *)
Theorem serve_counts
    (env : Env) (requests : list (Endpoint * list (string * string))) (w : World) :
  let r := serve env requests w in
  List.length (fst r) = List.length requests /\
  counter_total error_counter (trace (snd r))
    = counter_total error_counter (trace w)
      + Z.of_nat (List.length (filter (fun rq => counts_error (fst rq)) requests)) /\
  counter_total request_counter (trace (snd r))
    = counter_total request_counter (trace w)
      + Z.of_nat (List.length (filter (fun rq => counts_request (fst rq)) requests)).
Proof.
  cbv zeta. revert w.
  induction requests as [|[ep query] rest IH]; intros w.
  - cbn. repeat split; lia.
  - cbn [serve filter fst].
    pose proof (handle_counts env ep query w) as [He Hr].
    destruct (handle env ep query w) as [a w']. cbn [snd] in He, Hr.
    specialize (IH w'). destruct (serve env rest w') as [rs w''].
    cbn [fst snd] in IH |- *. destruct IH as (Hl & IHe & IHr).
    rewrite IHe, IHr, He, Hr. split; [cbn; lia|].
    destruct (counts_error ep), (counts_request ep);
      cbn [List.length]; split; lia.
Qed.

(** ** What the telemetry shows and what the client is told *)

Lemma ulp_below_512 (x : Q) :
  (0 < x)%Q -> (x < 512)%Q -> (Float64.ulp x <= Float64.pow2 (-44))%Q.
Proof.
  intros H0 H. destruct (Float64Facts.ilog2_spec x H0) as [L _].
  assert (Hp : (Float64.pow2 (Float64.ilog2 x) < Float64.pow2 9)%Q)
    by (change (Float64.pow2 9) with 512%Q; lra).
  apply Float64Facts.pow2_lt_inv in Hp. apply Float64Facts.pow2_le.
  unfold Float64.prec, Float64.emin. lia.
Qed.

Lemma round_2_error_500 (x : Q) :
  (10 <= x <= 500)%Q ->
  (- ((1 # 200) + Float64.pow2 (-45)) <= Float64.round_ndigits x 2 - x
     <= (1 # 200) + Float64.pow2 (-45))%Q.
Proof.
  intros [H1 H3]. unfold Float64.round_ndigits.
  change (inject_Z (10 ^ Z.of_nat 2)) with 100%Q.
  pose proof (RoundingError.rne_error (x * 100)) as [L U].
  set (m := inject_Z (Float64.rne (x * 100))) in *. clearbody m.
  assert (Ey : (m / 100 * 100 == m)%Q) by (field; lra).
  set (y := (m / 100)%Q) in *. clearbody y.
  assert (Hy0 : (0 < y)%Q) by lra. assert (Hy4 : (y < 512)%Q) by lra.
  rewrite (Float64Facts.fl_nonneg_eq y) by lra.
  pose proof (RoundingError.fl_abs_error y) as [L' U'].
  pose proof (ulp_below_512 y Hy0 Hy4) as Hu.
  assert (Ep : (Float64.pow2 (-44) == 2 * Float64.pow2 (-45))%Q) by reflexivity.
  set (u := Float64.ulp y) in *. clearbody u.
  set (p := Float64.pow2 (-45)) in *. clearbody p.
  set (f := Float64.fl_abs y) in *. clearbody f.
  split; lra.
Qed.

(** X9: [/demo/metrics] tells the client what it recorded.  The answer's
    [processing_time_ms] is the value recorded in the duration histogram,
    rounded to two decimals, so the two differ by at most half a hundredth (and
    one rounding of a float); [active_users_change] is the amount added to the
    active-users gauge; and the request counter is increased by one. *)
Theorem demo_metrics_reports_what_it_records
    (env : Env) (query : list (string * string)) (w : World) :
  let r := handle env DemoMetrics query w in
  exists recorded change metrics,
    metric_calls (new_events w (snd r))
      = [{| instrument := request_counter; amount := PyInt 1;
            attributes := [("endpoint", JStr "/demo/metrics"); ("method", JStr "GET")] |};
         {| instrument := processing_time_histogram; amount := PyFloat recorded;
            attributes := [("operation", JStr "demo_metrics")] |};
         {| instrument := active_users_gauge; amount := PyInt change;
            attributes := [("region", JStr "us-east")] |}] /\
    response_field "metrics" (fst r) = Some metrics /\
    json_field "processing_time_ms" metrics
      = Some (JFloat (Float64.round_ndigits recorded 2)) /\
    json_field "active_users_change" metrics = Some (JInt change) /\
    (10 <= recorded <= 500)%Q /\
    (- ((1 # 200) + Float64.pow2 (-45))
       <= Float64.round_ndigits recorded 2 - recorded
       <= (1 # 200) + Float64.pow2 (-45))%Q.
Proof.
  cbv zeta. from_empty_trace w. run. cbn [app metric_calls].
  eexists _, _, _. split; [reflexivity|]. split; [reflexivity|].
  split; [reflexivity|]. split; [reflexivity|].
  assert (H : (10 <= Float64.fadd (inject_Z 10)
                       (Float64.fmul (inject_Z (500 - 10))
                          (Qred (inject_Z (Z.of_N (env_random env draws) mod 2 ^ 53)
                                   / inject_Z (2 ^ 53)))) <= 500)%Q)
    by apply uniform_10_500.
  split; [exact H | apply round_2_error_500; exact H].
Qed.

(** X10: [/demo/slow] records in the duration histogram, which is in
    milliseconds, the chosen duration times 1000, a value between 1000 and
    3000; the span attribute and the sleep carry the same unrounded duration. *)
Theorem demo_slow_records_milliseconds
    (env : Env) (query : list (string * string)) (w : World) :
  let r := handle env DemoSlow query w in
  exists duration,
    (1 <= duration <= 3)%Q /\
    metric_calls (new_events w (snd r))
      = [{| instrument := processing_time_histogram;
            amount := PyFloat (Float64.fmul duration 1000);
            attributes := [("operation", JStr "slow_operation")] |}] /\
    (1000 <= Float64.fmul duration 1000 <= 3000)%Q /\
    attribute_values "slow_operation" "operation.duration_seconds"
      (new_events w (snd r)) = [JFloat duration] /\
    (time_slept (new_events w (snd r)) == duration)%Q.
Proof.
  cbv zeta. from_empty_trace w. run.
  cbn [app metric_calls attribute_values time_slept String.eqb Ascii.eqb Bool.eqb andb].
  set (duration := Float64.fadd _ _).
  assert (Hd : (1 <= duration <= 3)%Q) by apply uniform_1_3.
  exists duration. split; [exact Hd|]. split; [reflexivity|].
  split; [|split; [reflexivity | ring]].
  unfold Float64.fmul. apply Float64Facts.fl_between.
  - discriminate.
  - vm_compute. reflexivity.
  - vm_compute. reflexivity.
  - lra.
Qed.

(** ** [GET /demo/dependency], [GET /demo/trace] and [GET /demo/all] in detail *)


(** X12: [/demo/trace] answers 200 after drawing one data size between 100
    and 1000, which it reports both as the attribute [data.size] of the inner
    span and as the [records_processed] of its completion event. *)
Theorem demo_trace_data_size
    (env : Env) (query : list (string * string)) (w : World) :
  let r := handle env DemoTrace query w in
  let evs := new_events w (snd r) in
  resp_status (fst r) = 200 /\
  exists data_size,
    100 <= data_size <= 1000 /\
    attribute_values "sub_operation" "data.size" evs = [JInt data_size] /\
    In (TraceCall (AddEvent "sub_operation" "Processing completed"
                     [("records_processed", JInt data_size)])) evs /\
    rng_draws (snd r) = S (rng_draws w).
Proof.
  cbv zeta. from_empty_trace w. run. split; [reflexivity|].
  eexists. split; [|split; [reflexivity|split; [cbn; tauto | reflexivity]]].
  change (Z.to_nat (1000 - 100 + 1)) with 901%nat.
  pose proof (Nat.mod_upper_bound (env_index env draws) 901 ltac:(lia)). lia.
Qed.

(** X13: what [/demo/all] does whichever way its outbound call goes: the
    same four metric calls, the one controlled [ValueError] logged with its
    traceback and recorded on the span, and a [total_types] equal to the number
    of entries listed; the attribute [dependency.called] is set only when the
    call returned. *)
Theorem demo_all_invariants
    (env : Env) (query : list (string * string)) (w : World) :
  let r := handle env DemoAll query w in
  let evs := new_events w (snd r) in
  metric_calls evs
    = [{| instrument := request_counter; amount := PyInt 1;
          attributes := [("endpoint", JStr "/demo/all"); ("demo", JStr "comprehensive")] |};
       {| instrument := processing_time_histogram; amount := PyInt 250;
          attributes := [("operation", JStr "comprehensive_demo")] |};
       {| instrument := active_users_gauge; amount := PyInt 1;
          attributes := [("region", JStr "demo")] |};
       {| instrument := error_counter; amount := PyInt 1;
          attributes := [("error_type", JStr "simulated"); ("endpoint", JStr "/demo/all")] |}] /\
  recorded_exceptions "comprehensive_demo" evs
    = [ValueError "This is a controlled exception for demo"] /\
  filter (fun o => match o with Some _ => true | None => false end)
         (map lr_exc_info (log_calls evs))
    = [Some (ValueError "This is a controlled exception for demo")] /\
  (exists entries,
     response_field "telemetry_generated" (fst r) = Some (JList entries) /\
     response_field "total_types" (fst r)
       = Some (JInt (Z.of_nat (List.length entries)))) /\
  attribute_values "comprehensive_demo" "dependency.called" evs
    = match env_http env (http_calls w) with
      | Returned _ => [JBool true]
      | Failed _ => []
      end.
Proof.
  cbv zeta. from_empty_trace w. run. call_cases env query calls.
  all: split; [reflexivity|]; split; [reflexivity|]; split; [reflexivity|];
       split; [eexists; split; reflexivity | reflexivity].
Qed.

(* ================================================================= *)
(** * Further properties of the telemetry bootstrap *)

(** X14: a connection string the exporters refuse.  [setup_telemetry] fails
    with the [ValueError] of their parser, raised while the trace exporter is
    built.  By then the tracer provider has been created and handed to the
    registry, so the failure leaves it there without any span processor.
    Nothing else of the bootstrap has happened: no meter or logger provider,
    no handler on the root logger and no change of its level, no call to the
    distro or to an instrumentor. *)
Theorem setup_telemetry_refused_connection_string
    (sdk : Sdk) (settings : Settings) (app : FastAPI) (w : World)
    (c : ascii) (cs msg : string) :
  applicationinsights_connection_string settings = Some (String c cs) ->
  parse_error sdk (String c cs) = Some msg ->
  let r := setup_telemetry sdk settings app w in
  fst r = Raise (ValueError msg) /\
  providers (snd r)
    = (providers w ++ [{| resource := service_resource settings;
                          processors := [] |}])%list /\
  tracer_provider (snd r)
    = Registry.set_once (tracer_provider w) (List.length (providers w)) /\
  meter_provider (snd r) = meter_provider w /\
  logger_provider (snd r) = logger_provider w /\
  root_logger (snd r) = root_logger w /\
  instrumented (snd r) = instrumented w /\
  azure_monitor (snd r) = azure_monitor w.
Proof.
  intros Hcs Herr. cbv zeta. unfold setup_telemetry, service_resource.
  rewrite Hcs. open_world w. run_setup. rewrite Herr.
  repeat split.
Qed.

Lemma setup_telemetry_refused_connection_string_witness :
  applicationinsights_connection_string (Samples.settings_with "InstrumentationKey=k")
    = Some "InstrumentationKey=k" /\
  parse_error Samples.sdk "InstrumentationKey=k"
    = Some "Invalid instrumentation key. It should be a valid UUID." /\
  fst (setup_telemetry Samples.sdk (Samples.settings_with "InstrumentationKey=k")
         Main.app initial_world)
    = Raise (ValueError "Invalid instrumentation key. It should be a valid UUID.") /\
  tracer_provider
    (snd (setup_telemetry Samples.sdk (Samples.settings_with "InstrumentationKey=k")
            Main.app initial_world)) = Some 0%nat /\
  map processors
    (providers
       (snd (setup_telemetry Samples.sdk
               (Samples.settings_with "InstrumentationKey=k")
               Main.app initial_world))) = [[]].
Proof.
  split; [reflexivity|]. split; [reflexivity|].
  pose proof (setup_telemetry_refused_connection_string Samples.sdk
                (Samples.settings_with "InstrumentationKey=k") Main.app
                initial_world "I" "nstrumentationKey=k"
                "Invalid instrumentation key. It should be a valid UUID."
                eq_refl eq_refl) as H.
  cbv zeta in H. destruct H as (H1 & H2 & H3 & _).
  split; [exact H1|]. split; [rewrite H3; reflexivity|].
  rewrite H2. reflexivity.
Defined.

(* ================================================================= *)
(** * The load test *)

Module LoadTestingFacts.
Import LoadTesting.

(** Zero is a float. *)
Lemma fl_zero (x : Q) : (x == 0)%Q -> Float64.fl x = 0%Q.
Proof.
  intros Hx. unfold Float64.fl. change 0%Q with (Qred 0) at 2.
  apply Qred_complete.
  destruct (Qle_bool 0 x).
  - now apply Float64Facts.fl_abs_zero.
  - rewrite (Float64Facts.fl_abs_zero (- x)) by (rewrite Hx; reflexivity).
    reflexivity.
Qed.

Ltac run_script :=
  cbv [run_load_test loop iteration error_rate
       Script.ret Script.bind Script.raise Script.try_except Script.lift
       Script.print Script.process Script.stdout
       random_choice_of requests_get time_sleep
       SignedFloat.truediv SignedFloat.mul_int SignedFloat.format_1f
       SignedFloat.negative SignedFloat.magnitude
       bind ret raise try_except emit count_rng_draw count_http_call
       trace providers tracer_provider meter_provider logger_provider
       root_handlers root_level instrumented azure_monitor rng_draws clock_reads
       http_calls];
  cbn [fst snd Script.process Script.stdout trace http_calls rng_draws].

(** A choice from a sequence that is not empty is one of its elements and
    costs one draw. *)
Lemma random_choice_of_spec {A} (env : Env) (seq : list A) (w : World) :
  seq <> [] ->
  exists x,
    In x seq /\
    random_choice_of env seq w
      = (Ok x,
         {| providers := providers w; tracer_provider := tracer_provider w;
            meter_provider := meter_provider w; logger_provider := logger_provider w;
            root_handlers := root_handlers w; root_level := root_level w;
            instrumented := instrumented w; azure_monitor := azure_monitor w;
            trace := trace w;
            rng_draws := S (rng_draws w); clock_reads := clock_reads w;
            http_calls := http_calls w |}).
Proof.
  intros Hne. destruct seq as [|a seq]; [congruence|].
  assert (Hlt : (env_index env (rng_draws w) mod List.length (a :: seq)
                 < List.length (a :: seq))%nat)
    by (apply Nat.mod_upper_bound; discriminate).
  destruct (nth_error (a :: seq)
              (env_index env (rng_draws w) mod List.length (a :: seq)))
    as [x|] eqn:Hn; [|apply nth_error_None in Hn; lia].
  exists x. split; [exact (nth_error_In _ _ Hn)|].
  cbv beta iota delta [random_choice_of bind count_rng_draw ret].
  rewrite Hn. reflexivity.
Qed.

(** One round: one outbound call to an endpoint of the list, one line
    printed, one sleep, and one count increased. *)
Lemma iteration_spec (env : Env) (iterations i s e : Z) (c : Script.Console) :
  errors_only_from_requests env ->
  exists line endpoint,
    In endpoint ENDPOINTS /\
    iteration env iterations i (s, e) c
      = (Ok (match env_http env (http_calls (Script.process c)) with
             | Returned r =>
                 if (status_code r <? 400)%Z then ((s + 1)%Z, e) else (s, (e + 1)%Z)
             | Failed _ => (s, (e + 1)%Z)
             end),
         {| Script.process :=
              {| providers := providers (Script.process c);
                 tracer_provider := tracer_provider (Script.process c);
                 meter_provider := meter_provider (Script.process c);
                 logger_provider := logger_provider (Script.process c);
                 root_handlers := root_handlers (Script.process c);
                 root_level := root_level (Script.process c);
                 instrumented := instrumented (Script.process c);
                 azure_monitor := azure_monitor (Script.process c);
                 trace := (trace (Script.process c)
                             ++ [HttpGet (BASE_URL ++ endpoint) 10;
                                 Sleep (Float64.fl (2 # 10))])%list;
                 rng_draws := S (rng_draws (Script.process c));
                 clock_reads := clock_reads (Script.process c);
                 http_calls := S (http_calls (Script.process c)) |};
            Script.stdout := (Script.stdout c ++ [line])%list |}).
Proof.
  intros Henv. destruct c as [w out].
  destruct (random_choice_of_spec env ENDPOINTS w ltac:(discriminate))
    as (endpoint & Hin & Hc).
  unfold iteration. unfold Script.bind at 1. unfold Script.lift at 1.
  cbn [Script.process Script.stdout]. rewrite Hc. clear Hc.
  open_world w. run_script.
  destruct (env_http env calls) as [r|ex] eqn:Hh.
  - run_script. destruct (status_code r <? 400)%Z; run_script;
      eexists _, endpoint; (split; [exact Hin|]);
      rewrite <- app_assoc; reflexivity.
  - run_script. rewrite (Henv _ _ Hh). run_script.
    eexists _, endpoint. split; [exact Hin|].
    rewrite <- app_assoc. reflexivity.
Qed.

Lemma http_gets_app (t1 t2 : list Event) :
  http_gets (t1 ++ t2) = (http_gets t1 ++ http_gets t2)%list.
Proof.
  induction t1 as [|ev t1 IH]; [reflexivity|].
  destruct ev; cbn [http_gets Datatypes.app]; rewrite IH; reflexivity.
Qed.

Lemma time_slept_app (t1 t2 : list Event) :
  (time_slept (t1 ++ t2) == time_slept t1 + time_slept t2)%Q.
Proof.
  induction t1 as [|ev t1 IH]; [cbn; ring|].
  destruct ev; cbn [time_slept Datatypes.app]; rewrite IH; ring.
Qed.

(** [n] rounds of the loop. *)
Lemma loop_spec (env : Env) (iterations : Z) (n : nat) :
  errors_only_from_requests env ->
  forall (i s e : Z) (c : Script.Console),
  let failed := failed_calls env (http_calls (Script.process c)) n in
  exists c' lines evs,
    loop env iterations n i (s, e) c
      = (Ok ((s + (Z.of_nat n - failed))%Z, (e + failed)%Z), c') /\
    Script.stdout c' = (Script.stdout c ++ lines)%list /\
    List.length lines = n /\
    http_calls (Script.process c') = (http_calls (Script.process c) + n)%nat /\
    trace (Script.process c') = (trace (Script.process c) ++ evs)%list /\
    List.length (http_gets evs) = n /\
    Forall load_test_call (http_gets evs) /\
    (time_slept evs == inject_Z (Z.of_nat n) * Float64.fl (2 # 10))%Q /\
    (0 <= failed <= Z.of_nat n)%Z.
Proof.
  intros Henv. induction n as [|n IH]; intros i s e c; cbv zeta.
  - exists c, [], []. cbn [loop failed_calls]. unfold Script.ret.
    rewrite !app_nil_r, Nat.add_0_r.
    replace (s + (Z.of_nat 0 - 0))%Z with s by lia.
    replace (e + 0)%Z with e by lia.
    repeat split; try reflexivity; try lia. constructor.
  - cbn [loop]. unfold Script.bind at 1.
    destruct (iteration_spec env iterations i s e c Henv)
      as (line & endpoint & Hin & ->).
    set (c1 := {| Script.process := _; Script.stdout := _ |}).
    set (counts := match env_http env (http_calls (Script.process c)) with
                   | Returned r => _ | Failed _ => _ end).
    set (f1 := match env_http env (http_calls (Script.process c)) with
               | Returned r => if (status_code r <? 400)%Z then 0%Z else 1%Z
               | Failed _ => 1%Z
               end).
    assert (Hcounts : counts = ((s + (1 - f1))%Z, (e + f1)%Z)).
    { subst counts f1. destruct (env_http env (http_calls (Script.process c))) as [r|ex];
        [destruct (status_code r <? 400)%Z|]; f_equal; lia. }
    assert (Hf1 : (0 <= f1 <= 1)%Z).
    { subst f1. destruct (env_http env (http_calls (Script.process c))) as [r|ex];
        [destruct (status_code r <? 400)%Z|]; lia. }
    rewrite Hcounts.
    destruct (IH (i + 1)%Z (s + (1 - f1))%Z (e + f1)%Z c1)
      as (c' & lines & evs & Hrun & Hout & Hlen & Hcalls & Htr & Hgets & Hall & Hsl & Hb).
    cbv zeta in Hb.
    change (http_calls (Script.process c1)) with (S (http_calls (Script.process c))) in *.
    cbn [failed_calls]. fold f1.
    set (rest := failed_calls env (S (http_calls (Script.process c))) n) in *.
    exists c', (line :: lines),
      (HttpGet (BASE_URL ++ endpoint) 10 :: Sleep (Float64.fl (2 # 10)) :: evs).
    split.
    { rewrite Hrun. do 3 f_equal; lia. }
    split.
    { rewrite Hout. subst c1. cbn [Script.stdout]. now rewrite <- app_assoc. }
    split; [cbn; lia|]. split; [lia|].
    split.
    { rewrite Htr. subst c1. cbn [Script.process trace].
      now rewrite <- app_assoc. }
    split; [cbn [http_gets List.length]; lia|].
    split.
    { cbn [http_gets]. constructor; [|exact Hall]. exists endpoint. now split. }
    split; [|lia].
    cbn [time_slept]. rewrite Hsl. rewrite Nat2Z.inj_succ.
    unfold Z.succ. rewrite inject_Z_plus. ring.
Qed.

(** X17: the load test with nothing to do.  With [iterations] at or below
    zero the script makes no request and prints a count of zero successes and
    zero errors; with zero iterations it then fails with [ZeroDivisionError]
    while computing the error rate, before it prints the rate; with a negative
    number it completes and prints a rate of -0.0%. *)
Theorem run_load_test_without_iterations
    (env : Env) (iterations : Z) (c : Script.Console) :
  (iterations <= 0)%Z ->
  let r := run_load_test env iterations c in
  let counts :=
    [nl ++ "🚀 Starting load test..." ++ nl;
     nl ++ "📊 Load Test Results:";
     "   Total: " ++ str_int iterations ++ " requests";
     "   ✅ Successful: 0";
     "   ❌ Errors: 0"] in
  let closing :=
    ["   📈 Error Rate: -0.0%";
     nl ++ "💡 Check Azure Portal in 2-5 minutes to see the telemetry!" ++ nl] in
  Script.process (snd r) = Script.process c /\
  if (iterations =? 0)%Z then
    fst r = Raise (ZeroDivisionError "division by zero") /\
    Script.stdout (snd r) = (Script.stdout c ++ counts)%list
  else
    fst r = Ok tt /\
    Script.stdout (snd r) = (Script.stdout c ++ counts ++ closing)%list.
Proof.
  intros Hle. cbv zeta. destruct c as [w out].
  unfold run_load_test.
  replace (Z.to_nat iterations) with 0%nat by lia.
  run_script.
  destruct (Z.eqb_spec iterations 0) as [->|Hne].
  - cbn. split; [reflexivity|]. split; [reflexivity|].
    rewrite <- !app_assoc. reflexivity.
  - assert (Hlt : (iterations <? 0)%Z = true) by (apply Z.ltb_lt; lia).
    rewrite Hlt.
    rewrite (fl_zero (inject_Z (Z.abs 0) / inject_Z (Z.abs iterations)))
      by (unfold Qdiv; apply Qmult_0_l).
    replace (format_1f (Float64.fmul 0 (inject_Z (Z.abs 100)))) with "0.0"
      by (vm_compute; reflexivity).
    cbn [fst snd Script.process Script.stdout xorb Z.ltb Z.compare Pos.compare
         String.append].
    split; [reflexivity|]. split; [reflexivity|].
    rewrite <- !app_assoc. reflexivity.
Qed.

Lemma run_load_test_without_iterations_witness :
  (0 <= 0)%Z /\
  fst (run_load_test Samples.quiet_env 0
         {| Script.process := initial_world; Script.stdout := [] |})
    = Raise (ZeroDivisionError "division by zero") /\
  (-2 <= 0)%Z /\
  In "   📈 Error Rate: -0.0%"
     (Script.stdout
        (snd (run_load_test Samples.quiet_env (-2)
                {| Script.process := initial_world; Script.stdout := [] |}))).
Proof.
  split; [lia|]. split.
  { apply (run_load_test_without_iterations Samples.quiet_env 0
             {| Script.process := initial_world; Script.stdout := [] |}). lia. }
  split; [lia|].
  pose proof (run_load_test_without_iterations Samples.quiet_env (-2)
                {| Script.process := initial_world; Script.stdout := [] |}
                ltac:(lia)) as H.
  cbv zeta in H. destruct H as [_ H]. cbn [Z.eqb] in H. destruct H as [_ H].
  rewrite H. cbn [Script.stdout Datatypes.app In]. tauto.
Defined.

(** X18: the load test with work to do.  When every failure of an outbound
    call is a [RequestException], a run of [iterations > 0] rounds completes;
    it makes exactly [iterations] calls, each to a listed endpoint with a
    timeout of 10 seconds, sleeps 0.2 s after each, prints one line per round
    between the opening line and the summary, and the two counts of the
    summary add up to [iterations], the error count being the number of calls
    that raised or were answered with a status of 400 or more. *)
Theorem run_load_test_counts
    (env : Env) (iterations : Z) (c : Script.Console) :
  (0 < iterations)%Z ->
  errors_only_from_requests env ->
  let r := run_load_test env iterations c in
  let n := Z.to_nat iterations in
  let errors := failed_calls env (http_calls (Script.process c)) n in
  let opening := [nl ++ "🚀 Starting load test..." ++ nl] in
  let summary :=
    [nl ++ "📊 Load Test Results:";
     "   Total: " ++ str_int iterations ++ " requests";
     "   ✅ Successful: " ++ str_int (iterations - errors);
     "   ❌ Errors: " ++ str_int errors;
     "   📈 Error Rate: "
       ++ format_1f
            (Float64.fmul (Float64.fl (inject_Z errors / inject_Z iterations)) 100)
       ++ "%";
     nl ++ "💡 Check Azure Portal in 2-5 minutes to see the telemetry!" ++ nl] in
  fst r = Ok tt /\
  (0 <= errors <= iterations)%Z /\
  (exists rounds,
     List.length rounds = n /\
     Script.stdout (snd r)
       = (Script.stdout c ++ opening ++ rounds ++ summary)%list) /\
  http_calls (Script.process (snd r)) = (http_calls (Script.process c) + n)%nat /\
  exists evs,
    trace (Script.process (snd r)) = (trace (Script.process c) ++ evs)%list /\
    List.length (http_gets evs) = n /\
    Forall load_test_call (http_gets evs) /\
    (time_slept evs == inject_Z iterations * Float64.fl (2 # 10))%Q.
Proof.
  intros Hpos Henv. cbv zeta.
  set (opening := [nl ++ "🚀 Starting load test..." ++ nl]).
  set (c1 := {| Script.process := Script.process c;
                Script.stdout := (Script.stdout c ++ opening)%list |}).
  destruct (loop_spec env iterations (Z.to_nat iterations) Henv 0 0 0 c1)
    as (c' & lines & evs & Hrun & Hout & Hlen & Hcalls & Htr & Hgets & Hall & Hsl & Hb).
  cbv zeta in Hb.
  change (http_calls (Script.process c1)) with (http_calls (Script.process c)) in *.
  change (trace (Script.process c1)) with (trace (Script.process c)) in *.
  set (errors := failed_calls env (http_calls (Script.process c))
                   (Z.to_nat iterations)) in *.
  rewrite Z2Nat.id in Hb, Hsl by lia.
  replace (0 + (Z.of_nat (Z.to_nat iterations) - errors))%Z
    with (iterations - errors)%Z in Hrun by lia.
  replace (0 + errors)%Z with errors in Hrun by lia.
  assert (Hne : (iterations =? 0)%Z = false) by (apply Z.eqb_neq; lia).
  assert (Hlt : (iterations <? 0)%Z = false) by (apply Z.ltb_ge; lia).
  set (summary :=
         [nl ++ "📊 Load Test Results:";
          "   Total: " ++ str_int iterations ++ " requests";
          "   ✅ Successful: " ++ str_int (iterations - errors);
          "   ❌ Errors: " ++ str_int errors;
          "   📈 Error Rate: "
            ++ format_1f
                 (Float64.fmul (Float64.fl (inject_Z errors / inject_Z iterations)) 100)
            ++ "%";
          nl ++ "💡 Check Azure Portal in 2-5 minutes to see the telemetry!" ++ nl]).
  assert (E : run_load_test env iterations c
              = (Ok tt, {| Script.process := Script.process c';
                           Script.stdout := (Script.stdout c' ++ summary)%list |})).
  { unfold run_load_test. unfold Script.bind at 1. unfold Script.print at 1.
    cbv beta iota. fold opening. fold c1. unfold Script.bind at 1. rewrite Hrun.
    destruct c' as [w' out']. run_script. rewrite Hne. run_script.
    assert (He : (errors <? 0)%Z = false) by (apply Z.ltb_ge; lia).
    rewrite Hlt, He, (Z.abs_eq errors), (Z.abs_eq iterations) by lia.
    subst summary. rewrite <- !app_assoc. reflexivity. }
  rewrite E. cbn [fst snd Script.process Script.stdout].
  split; [reflexivity|]. split; [exact Hb|]. split.
  { exists lines. split; [exact Hlen|]. rewrite Hout. subst c1.
    cbn [Script.stdout]. rewrite <- !app_assoc. reflexivity. }
  split; [exact Hcalls|].
  exists evs. repeat split; assumption.
Qed.

Lemma quiet_env_errors_only_from_requests :
  errors_only_from_requests Samples.quiet_env.
Proof. intros k e H. injection H as <-. reflexivity. Qed.

Lemma run_load_test_counts_witness :
  (0 < 3)%Z /\ errors_only_from_requests Samples.quiet_env /\
  fst (run_load_test Samples.quiet_env 3
         {| Script.process := initial_world; Script.stdout := [] |}) = Ok tt.
Proof.
  split; [lia|]. split; [exact quiet_env_errors_only_from_requests|].
  apply (run_load_test_counts Samples.quiet_env 3
           {| Script.process := initial_world; Script.stdout := [] |});
    [lia | exact quiet_env_errors_only_from_requests].
Defined.

End LoadTestingFacts.

(* ================================================================= *)
(** * The routes and the scripts that call them *)

(** X19: every route answers under its own path, no two routes sharing
    one; of the paths the load test draws from, the four under
    [/demo/http-errors/] name no route of the application, and of the nine
    cases of the error test only [/] and [/health] do. *)
Theorem scripts_call_missing_routes :
  map (fun ep => resolve (path_of ep)) all_endpoints = map Some all_endpoints /\
  filter (fun path => match resolve path with Some _ => false | None => true end)
         LoadTesting.ENDPOINTS
    = ["/demo/http-errors/400"; "/demo/http-errors/404";
       "/demo/http-errors/500"; "/demo/http-errors/503"] /\
  map (fun tc => resolve (fst (fst tc))) HttpErrorTests.test_cases
    = [Some Root; Some Health; None; None; None; None; None; None; None].
Proof. repeat split. Qed.

(* ================================================================= *)
(** * The test suite *)

Module TestMainFacts.
Import TestMain.









End TestMainFacts.
